(** * instance_manager.py: a shallow embedding and its properties

    The script manages EC2 instances through boto: [InstancePool] starts,
    stops, reboots or lists a resolved set of instances, [Config] merges two
    YAML files into one dictionary, and [main] glues both to the command
    line.  Everything the script does is an interaction with the outside
    (stdout, the logging module, the file system, the provider), so the
    embedding is a state-and-exception monad over the trace of those
    interactions; what the outside answers is an oracle that sees the trace
    so far. *)

From Stdlib Require Import Ascii String ZArith List.
From stdpp Require Import gmap strings list fin_maps pretty sorting.

Set Warnings "-register-all".

Local Open Scope Z_scope.

(* ===================================================================== *)
(** ** Python 2 runtime: exceptions                                       *)
(* ===================================================================== *)

Module Py.

(** The exception classes the script can meet, with the Python 2.7 / boto /
    PyYAML class hierarchy. *)
Inductive ExnClass :=
| BaseException | SystemExit | KeyboardInterrupt | Exception | StandardError
| NameError | AttributeError | LookupError | KeyError | IndexError
| TypeError | ValueError | EnvironmentError | IOError
| YAMLError | NoAuthHandlerFound | BotoServerError | EC2ResponseError
| UnicodeError | UnicodeEncodeError.

Global Instance ExnClass_eq_dec : EqDecision ExnClass.
Proof. solve_decision. Defined.

Definition parent (c : ExnClass) : option ExnClass :=
  match c with
  | BaseException => None
  | SystemExit | KeyboardInterrupt | Exception => Some BaseException
  | StandardError | YAMLError | NoAuthHandlerFound => Some Exception
  | NameError | AttributeError | LookupError | TypeError | ValueError
  | EnvironmentError | BotoServerError => Some StandardError
  | KeyError | IndexError => Some LookupError
  | IOError => Some EnvironmentError
  | EC2ResponseError => Some BotoServerError
  | UnicodeError => Some ValueError
  | UnicodeEncodeError => Some UnicodeError
  end.

Fixpoint issubclass_upto (depth : nat) (c d : ExnClass) : bool :=
  if bool_decide (c = d) then true
  else match depth, parent c with
       | S n, Some p => issubclass_upto n p d
       | _, _ => false
       end.

(** The hierarchy above is five levels deep. *)
Definition issubclass : ExnClass -> ExnClass -> bool := issubclass_upto 5.

(** A raised exception: [sys.exit(code)] raises SystemExit with its code,
    anything else carries its class and its message ([str(e)], [e.message]). *)
Inductive Exn :=
| PyExn (c : ExnClass) (msg : string)
| PyExit (code : Z).

Definition class_of (e : Exn) : ExnClass :=
  match e with PyExn c _ => c | PyExit _ => SystemExit end.

Definition message (e : Exn) : string :=
  match e with PyExn _ msg => msg | PyExit code => pretty code end.

Definition isinstance (e : Exn) (c : ExnClass) : bool := issubclass (class_of e) c.

(** What a name of the module's namespace is bound to; only exception
    classes matter to an [except] clause. *)
Inductive Binding :=
| BModule | BFunction | BClass | BInt (z : Z) | BExn (c : ExnClass).

(** The names instance_manager.py binds at module level: its imports
    (lines 4-13), its constants (18-23), its classes and functions. *)
Definition module_globals : list (string * Binding) :=
  [ ("argparse", BModule); ("logging", BModule); ("sys", BModule);
    ("expanduser", BFunction); ("time", BModule);
    ("IterableUserDict", BClass); ("boto", BModule);
    ("EC2ResponseError", BExn EC2ResponseError); ("yaml", BModule);
    ("PENDING", BInt 0); ("RUNNING", BInt 16); ("SHUTTING_DOWN", BInt 32);
    ("TERMINATED", BInt 48); ("STOPPING", BInt 64); ("STOPPED", BInt 80);
    ("InstancePool", BClass); ("Config", BClass);
    ("parse_args", BFunction); ("main", BFunction) ].

(** The exception classes of the builtin namespace. *)
Definition builtins : list (string * Binding) :=
  [ ("BaseException", BExn BaseException); ("SystemExit", BExn SystemExit);
    ("KeyboardInterrupt", BExn KeyboardInterrupt); ("Exception", BExn Exception);
    ("StandardError", BExn StandardError); ("NameError", BExn NameError);
    ("AttributeError", BExn AttributeError); ("LookupError", BExn LookupError);
    ("KeyError", BExn KeyError); ("IndexError", BExn IndexError);
    ("TypeError", BExn TypeError); ("ValueError", BExn ValueError);
    ("EnvironmentError", BExn EnvironmentError); ("IOError", BExn IOError);
    ("UnicodeError", BExn UnicodeError);
    ("UnicodeEncodeError", BExn UnicodeEncodeError) ].

Fixpoint assoc (name : string) (ns : list (string * Binding)) : option Binding :=
  match ns with
  | [] => None
  | (n, b) :: ns' => if bool_decide (n = name) then Some b else assoc name ns'
  end.

(** Name lookup: module globals first, then builtins. *)
Definition resolve (name : string) : option Binding :=
  match assoc name module_globals with
  | Some b => Some b
  | None => assoc name builtins
  end.

(* ===================================================================== *)
(** ** Python 2 runtime: values, strings                                  *)
(* ===================================================================== *)

(** A string is a [str] or a [unicode] object; a unicode string is written
    with one character per code point, for code points below 256.  The
    characters of a string that are not ASCII are those from 128 on. *)
Definition non_ascii (c : ascii) : bool :=
  match c with Ascii _ _ _ _ _ _ _ b7 => b7 end.

Fixpoint is_ascii (s : string) : bool :=
  match s with
  | EmptyString => true
  | String c s' => negb (non_ascii c) && is_ascii s'
  end.

Definition hex_digit (n : nat) : string :=
  match n with
  | 0 => "0" | 1 => "1" | 2 => "2" | 3 => "3" | 4 => "4" | 5 => "5" | 6 => "6"
  | 7 => "7" | 8 => "8" | 9 => "9" | 10 => "a" | 11 => "b" | 12 => "c"
  | 13 => "d" | 14 => "e" | _ => "f"
  end%nat.

Definition hex (c : ascii) : string :=
  hex_digit (nat_of_ascii c / 16) +:+ hex_digit (nat_of_ascii c mod 16).

(** The number of characters a string begins with that are not ASCII. *)
Fixpoint run_length (s : string) : nat :=
  match s with
  | EmptyString => O
  | String c s' => if non_ascii c then S (run_length s') else O
  end.

(** The message of the UnicodeEncodeError that encoding a unicode string
    with the ascii codec raises: it names the first run of characters that
    are not ASCII.  None when the string is ASCII. *)
Fixpoint encode_error (pos : nat) (s : string) : option string :=
  match s with
  | EmptyString => None
  | String c s' =>
      if non_ascii c then
        Some (match run_length s' with
              | O =>
                  "'ascii' codec can't encode character u'\x" +:+ hex c
                  +:+ "' in position " +:+ pretty pos
                  +:+ ": ordinal not in range(128)"
              | S k =>
                  "'ascii' codec can't encode characters in position " +:+ pretty pos
                  +:+ "-" +:+ pretty (pos + S k)%nat
                  +:+ ": ordinal not in range(128)"
              end)
      else encode_error (S pos) s'
  end.

(** A float that is a number: one with an integral value (1.0, -0.0), which
    as a key is the integer of that value, or any other one, known by its
    [repr] ("3.5", "inf").  Not-a-number is left out. *)
Inductive Float := FWhole (z : Z) | FOther (repr : string).

(** Hashable values as keys of a dictionary.  Keys that are equal in Python
    are one key: True is 1, False is 0, 1.0 is 1. *)
Inductive PyKey := KNone | KInt (z : Z) | KStr (s : string) | KFloat (repr : string).

Global Instance PyKey_eq_dec : EqDecision PyKey.
Proof. solve_decision. Defined.

Global Instance PyKey_countable : Countable PyKey.
Proof.
  refine (inj_countable'
    (λ k, match k with
          | KNone => inl () | KInt z => inr (inl z) | KStr s => inr (inr (inl s))
          | KFloat r => inr (inr (inr r))
          end)
    (λ x, match x with
          | inl _ => KNone | inr (inl z) => KInt z | inr (inr (inl s)) => KStr s
          | inr (inr (inr r)) => KFloat r
          end) _).
  by intros [].
Defined.

(** The values [yaml.safe_load] returns and the script passes around. *)
Inductive PyVal :=
| PyNone
| PyInt (z : Z)
| PyStr (s : string)
| PyList (l : list PyVal)
| PyDict (d : gmap PyKey PyVal)
| PyBool (b : bool)
| PyFloat (f : Float).

(** [hash(v)] succeeds on None, booleans, numbers and strings only. *)
Definition hashable (v : PyVal) : option PyKey :=
  match v with
  | PyNone => Some KNone
  | PyInt z => Some (KInt z)
  | PyStr s => Some (KStr s)
  | PyBool b => Some (KInt (if b then 1 else 0))
  | PyFloat (FWhole z) => Some (KInt z)
  | PyFloat (FOther r) => Some (KFloat r)
  | PyList _ | PyDict _ => None
  end.

(** [type(v).__name__]; an integer outside the machine range (64 bits) is a
    long, a string with a character that is not ASCII is loaded as unicode. *)
Definition type_name (v : PyVal) : string :=
  match v with
  | PyNone => "NoneType"
  | PyBool _ => "bool"
  | PyInt z => if (- 2 ^ 63 <=? z) && (z <? 2 ^ 63) then "int" else "long"
  | PyFloat _ => "float"
  | PyStr s => if is_ascii s then "str" else "unicode"
  | PyList _ => "list"
  | PyDict _ => "dict"
  end.

(** Truth value, as [not x] tests it. *)
Definition truthy (v : PyVal) : bool :=
  match v with
  | PyNone => false
  | PyBool b => b
  | PyInt z => negb (z =? 0)
  | PyFloat (FWhole z) => negb (z =? 0)
  | PyFloat (FOther _) => true
  | PyStr s => negb (bool_decide (s = EmptyString))
  | PyList l => match l with [] => false | _ => true end
  | PyDict d => negb (bool_decide (size d = 0%nat))
  end.

Fixpoint chars (s : string) : list string :=
  match s with
  | EmptyString => []
  | String c s' => String c EmptyString :: chars s'
  end.

(** Iterating over a value: None when the value is not iterable.  A string
    yields its characters, a dict its keys.  The order in which a dict
    yields its keys depends on their hash values and on the history of the
    dict; it is left to [keys], which lists the keys of a dict as CPython
    iterates over them. *)
Definition iterate (keys : gmap PyKey PyVal -> list PyVal) (v : PyVal)
    : option (list PyVal) :=
  match v with
  | PyNone | PyBool _ | PyInt _ | PyFloat _ => None
  | PyStr s => Some (PyStr <$> chars s)
  | PyList l => Some l
  | PyDict d => Some (keys d)
  end.

(** An argument of [format]: a [str], or a [unicode] object. *)
Inductive FmtArg := Bytes (s : string) | Text (s : string).

(** What a [{}] field of a [str] template becomes: the argument itself; a
    unicode argument is encoded with the ascii codec, which raises
    UnicodeEncodeError when a character of it is not ASCII. *)
Definition render (a : FmtArg) : Exn + string :=
  match a with
  | Bytes s => inr s
  | Text s =>
      match encode_error 0 s with
      | Some msg => inl (PyExn UnicodeEncodeError msg)
      | None => inr s
      end
  end.

(** [template.format(args...)] for templates whose only fields are [{}], which
    is all the script uses.  The fields are filled from left to right; a
    field without an argument raises IndexError. *)
Fixpoint format (template : string) (args : list FmtArg) : Exn + string :=
  match template with
  | EmptyString => inr EmptyString
  | String "{"%char (String "}"%char rest) =>
      match args with
      | a :: args' =>
          match render a with
          | inl e => inl e
          | inr piece =>
              match format rest args' with
              | inl e => inl e
              | inr s => inr (piece +:+ s)
              end
          end
      | [] => inl (PyExn IndexError "tuple index out of range")
      end
  | String c rest =>
      match format rest args with
      | inl e => inl e
      | inr s => inr (String c s)
      end
  end.

(** [s.split(sep)] for a non-empty [sep]: [skip] counts the characters of a
    separator just matched that are still to be dropped, [cur] is the piece
    being read. *)
Fixpoint split_from (sep : string) (skip : nat) (cur s : string) : list string :=
  match s with
  | EmptyString => [cur]
  | String c s' =>
      match skip with
      | S k => split_from sep k cur s'
      | O =>
          if String.prefix sep s
          then cur :: split_from sep (String.length sep - 1) EmptyString s'
          else split_from sep O (cur +:+ String c EmptyString) s'
      end
  end.

End Py.
Export Py.

(* ===================================================================== *)
(** ** The outside world and the monad of the script                      *)
(* ===================================================================== *)

(** A boto instance handle, as [get_only_instances] returns it: the fields
    the script reads. *)
Module Inst.
Record t := mk {
  id : string;
  tags : gmap string string;
  state : string;
  state_code : Z
}.
End Inst.

(** What the script does to the outside, in the order it does it. *)
Inductive Event :=
| EvPrint (line : string)              (* print: one line on stdout *)
| EvBasicConfig (level : Z)            (* logging.basicConfig(level=...) *)
| EvLogWarn (msg : string)             (* logging.warn(msg) *)
| EvOpen (path : string)               (* open(path, 'r') and yaml.safe_load *)
| EvConnect (region : string)          (* boto.ec2.connect_to_region *)
| EvGetOnlyInstances (ids : PyVal)     (* conn.get_only_instances *)
| EvStart (i : Inst.t)                 (* instance.start() *)
| EvStop (i : Inst.t)                  (* instance.stop() *)
| EvReboot (i : Inst.t)                (* instance.reboot() *)
| EvGetStatus (id : string)            (* conn.get_all_instance_status *)
| EvSleep (secs : Z)                   (* time.sleep *)
| EvTraceback (e : Exn).               (* the interpreter reports an uncaught exception *)

(** What the outside answers.  Each answer may depend on everything that
    happened before (the trace), and each call may raise. *)
Record Env := {
  home : string;                       (* expanduser('~') *)
  (* the keys of a dict, in the order CPython iterates over them *)
  dict_keys : gmap PyKey PyVal -> list PyVal;
  read_yaml : list Event -> string -> Exn + PyVal;
  connect_to_region : list Event -> string -> Exn + unit;
  get_only_instances : list Event -> PyVal -> Exn + list Inst.t;
  instance_start : list Event -> Inst.t -> Exn + unit;
  instance_stop : list Event -> Inst.t -> Exn + unit;
  instance_reboot : list Event -> Inst.t -> Exn + unit;
  (* the state codes of the statuses returned, in order *)
  get_all_instance_status : list Event -> string -> Exn + list Z;
  time_sleep : list Event -> Z -> Exn + unit
}.

(** The state of the process: the trace so far and the one mutable object
    the script shares between calls, the dictionary [Config.data]. *)
Record State := mkState {
  trace : list Event;
  config_data : gmap PyKey PyVal
}.

Inductive Outcome (A : Type) :=
| Returned (a : A)
| Raised (e : Exn)
| OutOfFuel.
Arguments Returned {A} a.
Arguments Raised {A} e.
Arguments OutOfFuel {A}.

Definition M (A : Type) : Type := State -> Outcome A * State.

Definition ret {A} (a : A) : M A := λ s, (Returned a, s).

Definition bind {A B} (m : M A) (k : A -> M B) : M B :=
  λ s, match m s with
       | (Returned a, s') => k a s'
       | (Raised e, s') => (Raised e, s')
       | (OutOfFuel, s') => (OutOfFuel, s')
       end.

Declare Scope py_scope.
Delimit Scope py_scope with py.
Notation "x <- m ;; k" := (bind m (λ x, k))
  (at level 100, m at next level, right associativity) : py_scope.
Notation "m ;; k" := (bind m (λ _, k))
  (at level 100, right associativity) : py_scope.
Local Open Scope py_scope.

Definition raise {A} (e : Exn) : M A := λ s, (Raised e, s).

Definition out_of_fuel {A} : M A := λ s, (OutOfFuel, s).

Definition record (ev : Event) (s : State) : State :=
  {| trace := trace s ++ [ev]; config_data := config_data s |}.

Definition emit (ev : Event) : M unit := λ s, (Returned tt, record ev s).

(** A call to the outside: it is recorded, and it returns or raises what
    the outside answers after the trace so far. *)
Definition call {A} (ev : Event) (answer : list Event -> Exn + A) : M A :=
  λ s, match answer (trace s) with
       | inl e => (Raised e, record ev s)
       | inr a => (Returned a, record ev s)
       end.

Definition print (line : string) : M unit := emit (EvPrint line).

Definition sys_exit {A} (code : Z) : M A := raise (PyExit code).

Definition fmt (template : string) (args : list FmtArg) : M string :=
  match format template args with
  | inr s => ret s
  | inl e => raise e
  end.

(** [try: body except cls, e: handler].  The expression [cls] is looked up
    when an exception reaches the clause; a name that is not bound raises
    NameError in place of the exception being handled. *)
Definition try_except {A} (body : M A) (cls : string) (handler : Exn -> M A) : M A :=
  λ s, match body s with
       | (Raised e, s') =>
           match resolve cls with
           | None =>
               (Raised (PyExn NameError ("global name '" +:+ cls +:+ "' is not defined")), s')
           | Some (BExn c) => if isinstance e c then handler e s' else (Raised e, s')
           | Some _ => (Raised e, s')
           end
       | r => r
       end.

(** [for x in l: body]; a [continue] is the body returning early. *)
Fixpoint for_each {A} (l : list A) (body : A -> M unit) : M unit :=
  match l with
  | [] => ret tt
  | x :: l' => body x ;; for_each l' body
  end.

(** [while cond: body].  [fuel] bounds the number of times the body runs;
    the condition is evaluated once more than the body. *)
Fixpoint while_loop (fuel : nat) (cond : M bool) (body : M unit) : M unit :=
  b <- cond ;;
  if b : bool then
    match fuel with
    | O => out_of_fuel
    | S n => body ;; while_loop n cond body
    end
  else ret tt.

(** The state codes of boto/ec2/instance.py (lines 18-23). *)
Definition PENDING : Z := 0.
Definition RUNNING : Z := 16.
Definition SHUTTING_DOWN : Z := 32.
Definition TERMINATED : Z := 48.
Definition STOPPING : Z := 64.
Definition STOPPED : Z := 80.

(* ===================================================================== *)
(** ** class InstancePool (lines 25-100)                                  *)
(* ===================================================================== *)

Module InstancePool.

Record t := mk {
  _dry_run : bool;
  _blocking : bool;
  _instances : list Inst.t
}.

Section WithEnv.
Variable env : Env.

(** [__init__] (lines 26-47). *)
Definition __init__ (instance_ids : PyVal) (dry_run blocking : bool) : M t :=
  (if negb (truthy instance_ids)
   then print "No instance ids found." ;; sys_exit 1
   else ret tt) ;;
  try_except
    (call (EvConnect "us-east-1") (λ h, connect_to_region env h "us-east-1"))
    "NoAuthHandlerFound"
    (λ e,
      print "Authentication error, please make sure you have the correct boto config file." ;;
      sys_exit 1) ;;
  instances <-
    try_except
      (call (EvGetOnlyInstances instance_ids) (λ h, get_only_instances env h instance_ids))
      "EC2ResponseError"
      (λ e,
        line <- fmt "Error connecting instances: {}" [Bytes (message e)] ;;
        print line ;;
        sys_exit 1) ;;
  ret {| _dry_run := dry_run; _blocking := blocking; _instances := instances |}.

(** [instance.tags['Name']]: KeyError when the instance has no such tag.
    boto reads the tags and the state name of an instance from the
    provider's XML answer: they are unicode objects. *)
Definition tag (instance : Inst.t) (key : string) : M string :=
  match Inst.tags instance !! key with
  | Some v => ret v
  | None => raise (PyExn KeyError ("'" +:+ key +:+ "'"))
  end.

(** [list.pop()]: the last element, IndexError on an empty list. *)
Definition pop {A} (l : list A) : M A :=
  match reverse l with
  | x :: _ => ret x
  | [] => raise (PyExn IndexError "pop from empty list")
  end.

(** [_get_status] (lines 98-100). *)
Definition _get_status (instance_id : string) : M Z :=
  statuses <- call (EvGetStatus instance_id)
                   (λ h, get_all_instance_status env h instance_id) ;;
  pop statuses.

(** The blocking wait of lines 60-62, 75-77 and 90-92:
    [while self._blocking and self._get_status(instance.id) != target:
    time.sleep(1)].  [and] does not evaluate its right operand when the left
    one is false. *)
Definition wait_for (self : t) (fuel : nat) (instance : Inst.t) (target : Z) : M unit :=
  while_loop fuel
    (if _blocking self
     then (code <- _get_status (Inst.id instance) ;; ret (negb (code =? target)))
     else ret false)
    (call (EvSleep 1) (λ h, time_sleep env h 1)).

(** One turn of the loop of [start] (lines 51-62). *)
Definition start_body (self : t) (fuel : nat) (instance : Inst.t) : M unit :=
  instance_name <- tag instance "Name" ;;
  if Inst.state_code instance =? RUNNING then
    line <- fmt "Instance {} is already running, skip it." [Text instance_name] ;;
    print line
  else
    line <- fmt "Starting {}..." [Text instance_name] ;;
    print line ;;
    if negb (_dry_run self) then
      call (EvStart instance) (λ h, instance_start env h instance) ;;
      wait_for self fuel instance RUNNING
    else ret tt.

Definition start (self : t) (fuel : nat) : M unit :=
  for_each (_instances self) (start_body self fuel).

(** One turn of the loop of [stop] (lines 66-77). *)
Definition stop_body (self : t) (fuel : nat) (instance : Inst.t) : M unit :=
  instance_name <- tag instance "Name" ;;
  if Inst.state_code instance =? STOPPED then
    line <- fmt "Instance {} is already stopped, skip it." [Text instance_name] ;;
    print line
  else
    line <- fmt "Stopping {}..." [Text instance_name] ;;
    print line ;;
    if negb (_dry_run self) then
      call (EvStop instance) (λ h, instance_stop env h instance) ;;
      wait_for self fuel instance STOPPED
    else ret tt.

Definition stop (self : t) (fuel : nat) : M unit :=
  for_each (_instances self) (stop_body self fuel).

(** One turn of the loop of [reboot] (lines 81-92). *)
Definition reboot_body (self : t) (fuel : nat) (instance : Inst.t) : M unit :=
  instance_name <- tag instance "Name" ;;
  if negb (Inst.state_code instance =? RUNNING) then
    line <- fmt "Instance {} is not running, skip it." [Text instance_name] ;;
    print line
  else
    line <- fmt "Rebooting {}..." [Text instance_name] ;;
    print line ;;
    if negb (_dry_run self) then
      call (EvReboot instance) (λ h, instance_reboot env h instance) ;;
      wait_for self fuel instance RUNNING
    else ret tt.

Definition reboot (self : t) (fuel : nat) : M unit :=
  for_each (_instances self) (reboot_body self fuel).

(** One turn of the loop of [state] (line 96). *)
Definition state_body (instance : Inst.t) : M unit :=
  instance_name <- tag instance "Name" ;;
  line <- fmt "Instance {} state: {}" [Text instance_name; Text (Inst.state instance)] ;;
  print line.

Definition state (self : t) : M unit :=
  for_each (_instances self) state_body.

End WithEnv.
End InstancePool.

(* ===================================================================== *)
(** ** class Config (lines 103-135)                                       *)
(* ===================================================================== *)

Module Config.

Inductive FileType := user | site.

Definition modify_data (f : gmap PyKey PyVal -> gmap PyKey PyVal) : M unit :=
  λ s, (Returned tt, {| trace := trace s; config_data := f (config_data s) |}).

Section WithEnv.
Variable env : Env.

(** [self.data.update(other)], the builtin [dict.update].  A mapping is
    merged key by key.  Anything else is iterated as a sequence of pairs,
    each stored as soon as it is read, so that the entries before an
    offending element stay in the dictionary. *)
Definition update_item (idx : nat) (item : PyVal) : M unit :=
  match iterate (dict_keys env) item with
  | None =>
      raise (PyExn TypeError
        ("cannot convert dictionary update sequence element #" +:+ pretty idx
         +:+ " to a sequence"))
  | Some [k; v] =>
      match hashable k with
      | Some key => modify_data (<[key:=v]>)
      | None => raise (PyExn TypeError ("unhashable type: '" +:+ type_name k +:+ "'"))
      end
  | Some l =>
      raise (PyExn ValueError
        ("dictionary update sequence element #" +:+ pretty idx +:+ " has length "
         +:+ pretty (length l) +:+ "; 2 is required"))
  end.

Fixpoint update_seq (idx : nat) (items : list PyVal) : M unit :=
  match items with
  | [] => ret tt
  | item :: rest => update_item idx item ;; update_seq (S idx) rest
  end.

Definition update (other : PyVal) : M unit :=
  match other with
  | PyDict d => modify_data (λ data, map_fold (λ k v acc, <[k:=v]> acc) data d)
  | _ =>
      match iterate (dict_keys env) other with
      | None => raise (PyExn TypeError ("'" +:+ type_name other +:+ "' object is not iterable"))
      | Some items => update_seq 0 items
      end
  end.

(** [config_file_path] (line 116). *)
Definition config_file_path (type : FileType) : string :=
  match type with
  | user => home env +:+ "/.imgr.yaml"
  | site => "/etc/imgr.yaml"
  end.

(** [_load_config] (lines 130-135). *)
Definition _load_config (type : FileType) : M unit :=
  try_except
    (loaded <- call (EvOpen (config_file_path type))
                    (λ h, read_yaml env h (config_file_path type)) ;;
     update loaded)
    "Exception"
    (λ e,
      msg <- fmt "Failed to load config file: {}" [Bytes (message e)] ;;
      emit (EvLogWarn msg)).

Definition _load_user_config : M unit := _load_config user.

Definition _load_site_config : M unit := _load_config site.

(** [__init__] (lines 118-122). *)
Definition __init__ : M unit :=
  modify_data (λ _, ∅) ;;
  _load_site_config ;;
  _load_user_config.

End WithEnv.

(** [IterableUserDict.get(key)]: the value, None when the key is absent. *)
Definition get (key : string) : M PyVal :=
  λ s, (Returned (default PyNone (config_data s !! KStr key)), s).

End Config.

(* ===================================================================== *)
(** ** The command line (lines 138-176)                                   *)
(* ===================================================================== *)

Module Cli.

Inductive Command := CmdStart | CmdStop | CmdReboot | CmdState.

(** What [parse_args] returns. *)
Record Args := mkArgs {
  verbose : bool;
  nagging : bool;
  group : bool;
  dry_run : bool;
  non_blocking : bool;
  delimiter : string;
  command : Command;
  instances : string
}.

(** logging's levels. *)
Definition CRITICAL : Z := 50.
Definition INFO : Z := 20.
Definition DEBUG : Z := 10.

(** [str.split(sep)]. *)
Definition split (s sep : string) : M PyVal :=
  if bool_decide (sep = EmptyString)
  then raise (PyExn ValueError "empty separator")
  else ret (PyList (PyStr <$> split_from sep 0 EmptyString s)).

Section WithEnv.
Variable env : Env.

(** [getattr(instance_pool, args.command)()]. *)
Definition dispatch (pool : InstancePool.t) (cmd : Command) (fuel : nat) : M unit :=
  match cmd with
  | CmdStart => InstancePool.start env pool fuel
  | CmdStop => InstancePool.stop env pool fuel
  | CmdReboot => InstancePool.reboot env pool fuel
  | CmdState => InstancePool.state pool
  end.

(** [main] (lines 155-172); it returns None or 1. *)
(** The level [main] computes in lines 157-161. *)
Definition log_level (args : Args) : Z :=
  let level := CRITICAL in
  let level := if verbose args then INFO else level in
  let level := if nagging args then DEBUG else level in
  level.

Definition main (args : Args) (fuel : nat) : M (option Z) :=
  emit (EvBasicConfig (log_level args)) ;;
  Config.__init__ env ;;
  instances <- (if group args
                then Config.get (instances args)
                else split (instances args) (delimiter args)) ;;
  instance_pool <- InstancePool.__init__ env instances (dry_run args)
                     (if non_blocking args then false else true) ;;
  try_except
    (dispatch instance_pool (command args) fuel ;; ret None)
    "KeyboardInterrupt"
    (λ _, print "Keyboard interrupted" ;; ret (Some 1)).

(** [sys.exit(main())] (line 176): the exit status of the process, None
    when the fuel ran out.  An exception nobody caught ends the process with
    status 1, after a traceback unless it is a SystemExit. *)
Definition script (args : Args) (fuel : nat) (s : State) : option Z * State :=
  match main args fuel s with
  | (Returned None, s') => (Some 0, s')
  | (Returned (Some code), s') => (Some code, s')
  | (Raised (PyExit code), s') => (Some code, s')
  | (Raised (PyExn c msg), s') =>
      if bool_decide (c = SystemExit) then (Some 1, s')
      else (Some 1, record (EvTraceback (PyExn c msg)) s')
  | (OutOfFuel, s') => (None, s')
  end.

End WithEnv.
End Cli.

Definition initial : State := {| trace := []; config_data := ∅ |}.

(* ===================================================================== *)
(** ** Vocabulary of the statements                                       *)
(* ===================================================================== *)

Definition is_print (ev : Event) : bool :=
  match ev with EvPrint _ => true | _ => false end.

(** A start, stop or reboot request sent to the provider. *)
Definition is_transition (ev : Event) : bool :=
  match ev with EvStart _ | EvStop _ | EvReboot _ => true | _ => false end.

(** A status poll, or the sleep between two polls. *)
Definition is_wait (ev : Event) : bool :=
  match ev with EvGetStatus _ | EvSleep _ => true | _ => false end.

(** Any call to the provider. *)
Definition is_provider (ev : Event) : bool :=
  match ev with
  | EvConnect _ | EvGetOnlyInstances _ | EvStart _ | EvStop _ | EvReboot _
  | EvGetStatus _ => true
  | _ => false
  end.

(** What loading the configuration does: it opens files and logs warnings. *)
Definition is_config (ev : Event) : bool :=
  match ev with EvOpen _ | EvLogWarn _ => true | _ => false end.

(** [m] only appends to the trace, and every event it appends satisfies [P]. *)
Definition emits {A} (P : Event -> Prop) (m : M A) : Prop :=
  ∀ s, ∃ t, trace (m s).2 = trace s ++ t ∧ Forall P t.

(** [m] never runs out of fuel. *)
Definition total {A} (m : M A) : Prop := ∀ s, (m s).1 ≠ OutOfFuel.

(** The state after the events [t]. *)
Definition after (s : State) (t : list Event) : State :=
  {| trace := trace s ++ t; config_data := config_data s |}.

(** The line a command prints for the instance [i] named [name]: the skip
    notice when the instance is skipped, the action notice otherwise. *)
Definition notice (cmd : Cli.Command) (i : Inst.t) (name : string) : string :=
  match cmd with
  | Cli.CmdStart =>
      if Inst.state_code i =? RUNNING
      then "Instance " +:+ name +:+ " is already running, skip it."
      else "Starting " +:+ name +:+ "..."
  | Cli.CmdStop =>
      if Inst.state_code i =? STOPPED
      then "Instance " +:+ name +:+ " is already stopped, skip it."
      else "Stopping " +:+ name +:+ "..."
  | Cli.CmdReboot =>
      if negb (Inst.state_code i =? RUNNING)
      then "Instance " +:+ name +:+ " is not running, skip it."
      else "Rebooting " +:+ name +:+ "..."
  | Cli.CmdState => "Instance " +:+ name +:+ " state: " +:+ Inst.state i
  end.

(** The request a command sends for the instance [i] when it does not skip
    it; None when it skips it, and for [state], which sends none. *)
Definition transition (cmd : Cli.Command) (i : Inst.t) : option Event :=
  match cmd with
  | Cli.CmdStart => if Inst.state_code i =? RUNNING then None else Some (EvStart i)
  | Cli.CmdStop => if Inst.state_code i =? STOPPED then None else Some (EvStop i)
  | Cli.CmdReboot => if negb (Inst.state_code i =? RUNNING) then None else Some (EvReboot i)
  | Cli.CmdState => None
  end.

(** What the provider answers to that request. *)
Definition request (env : Env) (cmd : Cli.Command) : list Event -> Inst.t -> Exn + unit :=
  match cmd with
  | Cli.CmdStart => instance_start env
  | Cli.CmdStop => instance_stop env
  | Cli.CmdReboot => instance_reboot env
  | Cli.CmdState => λ _ _, inr ()
  end.

(** The loop body of a command. *)
Definition body (env : Env) (pool : InstancePool.t) (cmd : Cli.Command) (fuel : nat)
    : Inst.t -> M unit :=
  match cmd with
  | Cli.CmdStart => InstancePool.start_body env pool fuel
  | Cli.CmdStop => InstancePool.stop_body env pool fuel
  | Cli.CmdReboot => InstancePool.reboot_body env pool fuel
  | Cli.CmdState => InstancePool.state_body
  end.

(** The events a command may append: any, except a transition request
    other than its own for an instance it does not skip. *)
Definition allowed (cmd : Cli.Command) (ev : Event) : Prop :=
  match ev with
  | EvStart i | EvStop i | EvReboot i => transition cmd i = Some ev
  | _ => True
  end.

(** What [update] stores of the value [v] into an empty dictionary, and the
    exception it ends with, if any: both are read off [update] itself. *)
Definition stored_of (env : Env) (v : PyVal) : gmap PyKey PyVal :=
  config_data (Config.update env v (mkState [] ∅)).2.

Definition failure_of (env : Env) (v : PyVal) : option Exn :=
  match (Config.update env v (mkState [] ∅)).1 with
  | Raised e => Some e
  | _ => None
  end.

(** The same for a file whose reading answers [r]: a file that cannot be
    opened or parsed stores nothing and fails with what reading raised. *)
Definition stored (env : Env) (r : Exn + PyVal) : gmap PyKey PyVal :=
  match r with inl _ => ∅ | inr v => stored_of env v end.

Definition failure (env : Env) (r : Exn + PyVal) : option Exn :=
  match r with inl e => Some e | inr v => failure_of env v end.

(** The warning logged for a file that fails to load. *)
Definition warning (env : Env) (r : Exn + PyVal) : list Event :=
  match failure env r with
  | Some e => [EvLogWarn ("Failed to load config file: " +:+ message e)]
  | None => []
  end.

(** The instance [i] can be given its line by the command: it has the Name
    tag [name], and what the line is made of is ASCII (the name and, for
    [state], the state name), so that [format] can encode it. *)
Definition printable (cmd : Cli.Command) (i : Inst.t) (name : string) : Prop :=
  Inst.tags i !! "Name" = Some name
  ∧ is_ascii name = true
  ∧ (cmd = Cli.CmdState -> is_ascii (Inst.state i) = true).

(** [m] behaves as [dict.update] does: it touches the dictionary only, needs no fuel, and whatever it
    raises is an Exception. *)
Definition update_like (m : M unit) : Prop :=
  ∀ s, trace (m s).2 = trace s
       ∧ ((m s).1 = Returned tt ∨ ∃ e, (m s).1 = Raised e ∧ isinstance e Exception = true).

(** The provider lets a wait for [target] that starts after the history [h]
    succeed at its poll number [n] + 1 and not before: the first [n] polls
    answer another state code, the sleep after each of them returns, and
    the next poll answers [target].  The code polled is the one of the last
    status returned. *)
Fixpoint converges (env : Env) (id : string) (target : Z) (h : list Event) (n : nat)
    : Prop :=
  match n with
  | O => ∃ l, get_all_instance_status env h id = inr (l ++ [target])
  | S k =>
      (∃ l code, get_all_instance_status env h id = inr (l ++ [code]) ∧ code ≠ target)
      ∧ time_sleep env (h ++ [EvGetStatus id]) 1 = inr ()
      ∧ converges env id target (h ++ [EvGetStatus id; EvSleep 1]) k
  end.

(** The events of such a wait: [n] polls each followed by a sleep, and the
    poll that succeeds. *)
Fixpoint polling (id : string) (n : nat) : list Event :=
  match n with
  | O => [EvGetStatus id]
  | S k => EvGetStatus id :: EvSleep 1 :: polling id k
  end.

(** [main], started in [s], gets as far as the command: the configuration
    loads, the ids are found, the pool [pool] is constructed, and the
    command is about to run in the state [sp]. *)
Definition reaches_command (env : Env) (args : Cli.Args) (s : State)
    (pool : InstancePool.t) (sp : State) : Prop :=
  ∃ sc ids,
    Config.__init__ env (record (EvBasicConfig (Cli.log_level args)) s) = (Returned tt, sc)
    ∧ (if Cli.group args
       then Config.get (Cli.instances args)
       else Cli.split (Cli.instances args) (Cli.delimiter args)) sc
      = (Returned ids, sc)
    ∧ InstancePool.__init__ env ids (Cli.dry_run args)
        (if Cli.non_blocking args then false else true) sc
      = (Returned pool, sp).

(** An event that names an instance names one of [l]: a request is sent to
    an instance of [l], a status poll asks for the id of one. *)
Definition concerns (l : list Inst.t) (ev : Event) : Prop :=
  match ev with
  | EvStart i | EvStop i | EvReboot i => In i l
  | EvGetStatus id => ∃ i, In i l ∧ Inst.id i = id
  | _ => True
  end.

(** [sep.join(l)]. *)
Fixpoint join (sep : string) (l : list string) : string :=
  match l with
  | [] => ""
  | [x] => x
  | x :: l' => x +:+ sep +:+ join sep l'
  end.

(** How [dict.update] reads an element of a sequence: as a key and a value
    when the element has two items and the first can be hashed. *)
Definition as_pair (env : Env) (item : PyVal) : option (PyKey * PyVal) :=
  match iterate (dict_keys env) item with
  | Some [k; v] => (λ key, (key, v)) <$> hashable k
  | _ => None
  end.

(** The pairs a sequence begins with, up to its first element that is none. *)
Fixpoint leading_pairs (env : Env) (items : list PyVal) : list (PyKey * PyVal) :=
  match items with
  | [] => []
  | item :: rest =>
      match as_pair env item with
      | Some kv => kv :: leading_pairs env rest
      | None => []
      end
  end.

(** Storing pairs one after the other. *)
Definition store (data : gmap PyKey PyVal) (kvs : list (PyKey * PyVal))
    : gmap PyKey PyVal :=
  foldl (λ d kv, <[kv.1 := kv.2]> d) data kvs.

Definition is_warning (ev : Event) : bool :=
  match ev with EvLogWarn _ => true | _ => false end.

(** The name on the Name tag, for an instance that has one. *)
Definition name_of (i : Inst.t) : string := default "" (Inst.tags i !! "Name").

(** The state code a command waits for after its request. *)
Definition awaited (cmd : Cli.Command) : Z :=
  match cmd with
  | Cli.CmdStop => STOPPED
  | _ => RUNNING
  end.

(** The pool [pool] with the list [l] for its instances: the same flags. *)
Definition with_instances (pool : InstancePool.t) (l : list Inst.t) : InstancePool.t :=
  InstancePool.mk (InstancePool._dry_run pool) (InstancePool._blocking pool) l.

(** What a turn of the loop that does not wait does for its instance: the
    notice, and the request unless the instance is skipped or the run is
    dry. *)
Definition effects (dry_run : bool) (cmd : Cli.Command) (i : Inst.t) : list Event :=
  EvPrint (notice cmd i (name_of i))
  :: match transition cmd i with
     | Some ev => if dry_run then [] else [ev]
     | None => []
     end.

(** The turn of the loop for [i] does not depend on the provider's
    goodwill: nothing is sent to [i], or the pool does not wait and the
    provider accepts the request whenever it comes. *)
Definition prompt (env : Env) (pool : InstancePool.t) (cmd : Cli.Command) (i : Inst.t)
    : Prop :=
  transition cmd i = None
  ∨ InstancePool._dry_run pool = true
  ∨ (InstancePool._blocking pool = false ∧ ∀ h, request env cmd h i = inr ()).

(* ===================================================================== *)
(** ** Sample worlds                                                      *)
(* ===================================================================== *)

Module Demo.

Definition web1 : Inst.t := Inst.mk "i-1" {[ "Name" := "web-1" ]} "running" RUNNING.
Definition web2 : Inst.t := Inst.mk "i-2" {[ "Name" := "web-2" ]} "stopped" STOPPED.
(** An instance without a Name tag. *)
Definition anon : Inst.t := Inst.mk "i-3" ∅ "stopped" STOPPED.
(** An instance whose name ends with a character that is not ASCII (e with
    an acute accent, code point 233). *)
Definition cafe : Inst.t :=
  Inst.mk "i-4" {[ "Name" := String "c" (String "a" (String "f" (String "233" ""))) ]}
    "stopped" STOPPED.

Definition site_yaml : gmap PyKey PyVal :=
  {[ KStr "web" := PyList [PyStr "i-1"; PyStr "i-2"] ]}.

Definition user_yaml : gmap PyKey PyVal :=
  {[ KStr "web" := PyList [PyStr "i-9"]; KStr "db" := PyList [PyStr "i-7"] ]}.

Fixpoint slept (h : list Event) : nat :=
  match h with
  | [] => 0%nat
  | EvSleep _ :: h' => S (slept h')
  | _ :: h' => slept h'
  end.

Definition key_value (k : PyKey) : PyVal :=
  match k with
  | KNone => PyNone | KInt z => PyInt z | KStr s => PyStr s
  | KFloat r => PyFloat (FOther r)
  end.

Definition int_key (k : PyKey) : option Z :=
  match k with KInt z => Some z | _ => None end.

(** The keys of a dict whose keys are small integers (0 to 7), as CPython
    yields them: in ascending order, each key sitting in the slot of its
    own value.  The sample files hold no other dict inside a sequence; for
    other keys the order is this world's choice. *)
Definition keys_in_order (d : gmap PyKey PyVal) : list PyVal :=
  (PyInt <$> merge_sort Z.le (omap int_key (map_to_list d).*1))
  ++ (key_value <$> filter (λ k, int_key k = None) (map_to_list d).*1).

(** A world where both files hold a mapping, the provider accepts every
    call, and an instance reaches the state it is polled for after two
    sleeps. *)
Definition env : Env := {|
  home := "/home/ops";
  dict_keys := keys_in_order;
  read_yaml := λ _ path,
    if bool_decide (path = "/etc/imgr.yaml") then inr (PyDict site_yaml)
    else inr (PyDict user_yaml);
  connect_to_region := λ _ _, inr ();
  get_only_instances := λ _ _, inr [web1; web2];
  instance_start := λ _ _, inr ();
  instance_stop := λ _ _, inr ();
  instance_reboot := λ _ _, inr ();
  get_all_instance_status := λ h _,
    inr [if bool_decide (2 ≤ slept h)%nat then RUNNING else PENDING];
  time_sleep := λ _ _, inr ()
|}.

(** The same world without credentials: connecting raises boto's
    NoAuthHandlerFound. *)
Definition no_auth : Env := {|
  home := home env;
  dict_keys := dict_keys env;
  read_yaml := read_yaml env;
  connect_to_region := λ _ _,
    inl (PyExn NoAuthHandlerFound "No handler was ready to authenticate.");
  get_only_instances := get_only_instances env;
  instance_start := instance_start env;
  instance_stop := instance_stop env;
  instance_reboot := instance_reboot env;
  get_all_instance_status := get_all_instance_status env;
  time_sleep := time_sleep env
|}.

(** The same world where the provider knows none of the ids. *)
Definition unknown_id : Env := {|
  home := home env;
  dict_keys := dict_keys env;
  read_yaml := read_yaml env;
  connect_to_region := connect_to_region env;
  get_only_instances := λ _ _,
    inl (PyExn EC2ResponseError "The instance ID 'i-0' does not exist");
  instance_start := instance_start env;
  instance_stop := instance_stop env;
  instance_reboot := instance_reboot env;
  get_all_instance_status := get_all_instance_status env;
  time_sleep := time_sleep env
|}.

(** The user file holds a YAML sequence, [[web, [i-9]], [oops]], instead of
    a mapping: its first element is a pair, its second is not. *)
Definition broken_user_yaml : PyVal :=
  PyList [ PyList [PyStr "web"; PyList [PyStr "i-9"]]; PyList [PyStr "oops"] ].

Definition broken_user : Env := {|
  home := home env;
  dict_keys := dict_keys env;
  read_yaml := λ _ path,
    if bool_decide (path = "/etc/imgr.yaml") then inr (PyDict site_yaml)
    else inr broken_user_yaml;
  connect_to_region := connect_to_region env;
  get_only_instances := get_only_instances env;
  instance_start := instance_start env;
  instance_stop := instance_stop env;
  instance_reboot := instance_reboot env;
  get_all_instance_status := get_all_instance_status env;
  time_sleep := time_sleep env
|}.

(** The user file is missing. *)
Definition no_user_file : Env := {|
  home := home env;
  dict_keys := dict_keys env;
  read_yaml := λ _ path,
    if bool_decide (path = "/etc/imgr.yaml") then inr (PyDict site_yaml)
    else inl (PyExn IOError "[Errno 2] No such file or directory: '/home/ops/.imgr.yaml'");
  connect_to_region := connect_to_region env;
  get_only_instances := get_only_instances env;
  instance_start := instance_start env;
  instance_stop := instance_stop env;
  instance_reboot := instance_reboot env;
  get_all_instance_status := get_all_instance_status env;
  time_sleep := time_sleep env
|}.

(** The same world where no instance ever leaves pending and the user
    interrupts the second sleep. *)
Definition interrupted : Env := {|
  home := home env;
  dict_keys := dict_keys env;
  read_yaml := read_yaml env;
  connect_to_region := connect_to_region env;
  get_only_instances := get_only_instances env;
  instance_start := instance_start env;
  instance_stop := instance_stop env;
  instance_reboot := instance_reboot env;
  get_all_instance_status := λ _ _, inr [PENDING];
  time_sleep := λ h _,
    if bool_decide (1 ≤ slept h)%nat then inl (PyExn KeyboardInterrupt "") else inr ()
|}.

(** The same world where no instance ever leaves pending. *)
Definition stuck : Env := {|
  home := home env;
  dict_keys := dict_keys env;
  read_yaml := read_yaml env;
  connect_to_region := connect_to_region env;
  get_only_instances := get_only_instances env;
  instance_start := instance_start env;
  instance_stop := instance_stop env;
  instance_reboot := instance_reboot env;
  get_all_instance_status := λ _ _, inr [PENDING];
  time_sleep := time_sleep env
|}.

(** The same world where the provider refuses every start request, and the
    one where resolving the ids is cut by the network. *)
Definition refusing : Env := {|
  home := home env;
  dict_keys := dict_keys env;
  read_yaml := read_yaml env;
  connect_to_region := connect_to_region env;
  get_only_instances := get_only_instances env;
  instance_start := λ _ _, inl (PyExn EC2ResponseError "IncorrectInstanceState");
  instance_stop := instance_stop env;
  instance_reboot := instance_reboot env;
  get_all_instance_status := get_all_instance_status env;
  time_sleep := time_sleep env
|}.

Definition cut_off : Env := {|
  home := home env;
  dict_keys := dict_keys env;
  read_yaml := read_yaml env;
  connect_to_region := connect_to_region env;
  get_only_instances := λ _ _, inl (PyExn IOError "[Errno 104] Connection reset by peer");
  instance_start := instance_start env;
  instance_stop := instance_stop env;
  instance_reboot := instance_reboot env;
  get_all_instance_status := get_all_instance_status env;
  time_sleep := time_sleep env
|}.

Definition pool (dry_run blocking : bool) : InstancePool.t :=
  InstancePool.mk dry_run blocking [web1; web2].

Definition args (group dry_run non_blocking : bool) (cmd : Cli.Command)
    (instances : string) : Cli.Args :=
  Cli.mkArgs false false group dry_run non_blocking "," cmd instances.

End Demo.

(* ===================================================================== *)
(** ** Runs on the sample worlds                                          *)
(* ===================================================================== *)

Example format_one (name : string) :
  format "Starting {}..." [Bytes name] = inr ("Starting " +:+ name +:+ "...").
Proof. reflexivity. Qed.

Example format_missing_argument :
  format "{} and {}" [Bytes "a"] = inl (PyExn IndexError "tuple index out of range").
Proof. reflexivity. Qed.

Example format_unicode :
  format "Starting {}..." [Text "web-1"] = inr "Starting web-1..."
  ∧ format "Starting {}..." [Text (String "c" (String "a" (String "f" (String "233" ""))))]
    = inl (PyExn UnicodeEncodeError
             "'ascii' codec can't encode character u'\xe9' in position 3: ordinal not in range(128)")
  ∧ format "{}" [Text (String "200" (String "201" "x"))]
    = inl (PyExn UnicodeEncodeError
             "'ascii' codec can't encode characters in position 0-1: ordinal not in range(128)").
Proof. by vm_compute. Qed.

Example type_names :
  type_name (PyBool true) = "bool" ∧ type_name (PyInt 7) = "int"
  ∧ type_name (PyInt (2 ^ 63)) = "long" ∧ type_name (PyFloat (FOther "3.5")) = "float".
Proof. by vm_compute. Qed.

Example split_commas :
  split_from "," 0 "" "i-1,i-2,,i-3," = ["i-1"; "i-2"; ""; "i-3"; ""].
Proof. reflexivity. Qed.

Example split_long_separator : split_from "::" 0 "" "a::b:c" = ["a"; "b:c"].
Proof. reflexivity. Qed.

Example split_empty_string : split_from "," 0 "" "" = [""].
Proof. reflexivity. Qed.

Example issubclass_examples :
  issubclass EC2ResponseError Exception = true
  ∧ issubclass KeyboardInterrupt Exception = false
  ∧ issubclass SystemExit Exception = false
  ∧ issubclass IOError Exception = true
  ∧ issubclass NoAuthHandlerFound EC2ResponseError = false.
Proof. by vm_compute. Qed.

Example resolve_examples :
  resolve "EC2ResponseError" = Some (BExn EC2ResponseError)
  ∧ resolve "Exception" = Some (BExn Exception)
  ∧ resolve "NoAuthHandlerFound" = None.
Proof. by vm_compute. Qed.

(** [imgr -g start web]: i-1 is skipped, i-2 is started and polled until the
    third poll answers running. *)
Lemma web1_printable (cmd : Cli.Command) : printable cmd Demo.web1 "web-1".
Proof. repeat split; try intros _; by vm_compute. Qed.

Lemma web2_printable (cmd : Cli.Command) : printable cmd Demo.web2 "web-2".
Proof. repeat split; try intros _; by vm_compute. Qed.

Lemma pool_printable (cmd : Cli.Command) (dry_run blocking : bool) (i : Inst.t) :
  In i (InstancePool._instances (Demo.pool dry_run blocking)) ->
  ∃ name, printable cmd i name.
Proof.
  intros [<- | [<- | []]];
    [exists "web-1"; apply web1_printable | exists "web-2"; apply web2_printable].
Qed.

Example run_start_group :
  Cli.script Demo.env (Demo.args true false false Cli.CmdStart "web") 5 initial
  = (Some 0,
     {| trace :=
          [ EvBasicConfig 50; EvOpen "/etc/imgr.yaml"; EvOpen "/home/ops/.imgr.yaml";
            EvConnect "us-east-1"; EvGetOnlyInstances (PyList [PyStr "i-9"]);
            EvPrint "Instance web-1 is already running, skip it.";
            EvPrint "Starting web-2...";
            EvStart Demo.web2;
            EvGetStatus "i-2"; EvSleep 1; EvGetStatus "i-2"; EvSleep 1;
            EvGetStatus "i-2" ];
        config_data := Demo.user_yaml ∪ Demo.site_yaml |}).
Proof. by vm_compute. Qed.

(* ===================================================================== *)
(** ** The monad: what a computation appends to the trace                 *)
(* ===================================================================== *)

Section Emits.
Context {A : Type} (P : Event -> Prop).

Lemma emits_ret (a : A) : emits P (ret a).
Proof. intros s. exists []. by rewrite app_nil_r. Qed.

Lemma emits_raise (e : Exn) : emits P (raise e : M A).
Proof. intros s. exists []. by rewrite app_nil_r. Qed.

Lemma emits_out_of_fuel : emits P (out_of_fuel : M A).
Proof. intros s. exists []. by rewrite app_nil_r. Qed.

Lemma emits_sys_exit (code : Z) : emits P (sys_exit code : M A).
Proof. apply emits_raise. Qed.

Lemma emits_call (ev : Event) (answer : list Event -> Exn + A) :
  P ev -> emits P (call ev answer).
Proof.
  intros Hev s. exists [ev]. unfold call.
  destruct (answer (trace s)); simpl; by repeat constructor.
Qed.

Lemma emits_bind {B} (m : M B) (k : B -> M A) :
  emits P m -> (∀ b, emits P (k b)) -> emits P (bind m k).
Proof.
  intros Hm Hk s. unfold bind.
  destruct (Hm s) as (t1 & E1 & F1).
  destruct (m s) as [[b | e |] s']; simpl in *; [| by exists t1 ..].
  destruct (Hk b s') as (t2 & E2 & F2).
  exists (t1 ++ t2). rewrite E2, E1, app_assoc. split; [done |].
  by apply Forall_app.
Qed.

Lemma emits_try_except (body : M A) (cls : string) (handler : Exn -> M A) :
  emits P body -> (∀ e, emits P (handler e)) -> emits P (try_except body cls handler).
Proof.
  intros Hb Hh s. unfold try_except.
  destruct (Hb s) as (t1 & E1 & F1).
  destruct (body s) as [[a | e |] s']; simpl in *; [by exists t1 | | by exists t1].
  destruct (resolve cls) as [[| | | | c] |]; simpl; try by exists t1.
  destruct (isinstance e c); [| by exists t1].
  destruct (Hh e s') as (t2 & E2 & F2).
  exists (t1 ++ t2). rewrite E2, E1, app_assoc. split; [done |].
  by apply Forall_app.
Qed.

Lemma emits_weaken (Q : Event -> Prop) (m : M A) :
  (∀ ev, P ev -> Q ev) -> emits P m -> emits Q m.
Proof.
  intros HPQ Hm s. destruct (Hm s) as (t & E & F).
  exists t. split; [done |]. by eapply Forall_impl.
Qed.

End Emits.

Lemma emits_emit (P : Event -> Prop) (ev : Event) : P ev -> emits P (emit ev).
Proof. intros Hev s. exists [ev]. simpl. by repeat constructor. Qed.

Lemma emits_print (P : Event -> Prop) (line : string) :
  P (EvPrint line) -> emits P (print line).
Proof. apply emits_emit. Qed.

Lemma emits_fmt (P : Event -> Prop) (template : string) (args : list FmtArg) :
  emits P (fmt template args).
Proof. unfold fmt. destruct (format template args); [apply emits_raise | apply emits_ret]. Qed.

Lemma emits_for_each {A} (P : Event -> Prop) (l : list A) (body : A -> M unit) :
  (∀ x, In x l -> emits P (body x)) -> emits P (for_each l body).
Proof.
  induction l as [| x l IH]; intros Hb; simpl.
  - apply emits_ret.
  - apply emits_bind; [apply Hb; by left |].
    intros _. apply IH. intros y Hy. apply Hb. by right.
Qed.

Lemma emits_while_loop (P : Event -> Prop) (fuel : nat) (cond : M bool) (body : M unit) :
  emits P cond -> emits P body -> emits P (while_loop fuel cond body).
Proof.
  intros Hc Hb. induction fuel as [| n IH]; simpl.
  - apply emits_bind; [done |]. intros [|]; [apply emits_out_of_fuel | apply emits_ret].
  - apply emits_bind; [done |]. intros [|]; [| apply emits_ret].
    apply emits_bind; [done |]. intros _. apply IH.
Qed.

(* ===================================================================== *)
(** ** The monad: computations that need no fuel                          *)
(* ===================================================================== *)

Section Total.
Context {A : Type}.

Lemma total_ret (a : A) : total (ret a).
Proof. by intros s. Qed.

Lemma total_raise (e : Exn) : total (raise e : M A).
Proof. by intros s. Qed.

Lemma total_call (ev : Event) (answer : list Event -> Exn + A) : total (call ev answer).
Proof. intros s. unfold call. by destruct (answer (trace s)). Qed.

Lemma total_bind {B} (m : M B) (k : B -> M A) :
  total m -> (∀ b, total (k b)) -> total (bind m k).
Proof.
  intros Hm Hk s. unfold bind. specialize (Hm s).
  destruct (m s) as [[b | e |] s']; simpl in *; [apply Hk | done | done].
Qed.

End Total.

Lemma total_emit (ev : Event) : total (emit ev).
Proof. by intros s. Qed.

Lemma total_fmt (template : string) (args : list FmtArg) : total (fmt template args).
Proof. unfold fmt. destruct (format template args); [apply total_raise | apply total_ret]. Qed.

Lemma total_for_each {A} (l : list A) (body : A -> M unit) :
  (∀ x, In x l -> total (body x)) -> total (for_each l body).
Proof.
  induction l as [| x l IH]; intros Hb; simpl.
  - apply total_ret.
  - apply total_bind; [apply Hb; by left |].
    intros _. apply IH. intros y Hy. apply Hb. by right.
Qed.

(** A loop whose condition is false from the start runs without fuel. *)
Lemma while_loop_false (fuel : nat) (body : M unit) :
  while_loop fuel (ret false) body = ret tt.
Proof. by destruct fuel. Qed.

(* ===================================================================== *)
(** ** The monad: a loop that returned ran every turn                     *)
(* ===================================================================== *)


(* ===================================================================== *)
(** ** Strings                                                            *)
(* ===================================================================== *)

Lemma append_empty_r (s : string) : s +:+ "" = s.
Proof.
  induction s as [| c s IH]; [done |].
  cbv [String.append]. fold String.append. by rewrite IH.
Qed.

Lemma encode_error_ascii (s : string) (pos : nat) :
  is_ascii s = true -> encode_error pos s = None.
Proof.
  revert pos. induction s as [| c s IH]; intros pos Hs; [done |].
  simpl in *. destruct (non_ascii c); [done |]. by apply IH.
Qed.

Lemma encode_error_non_ascii (s : string) (pos : nat) :
  is_ascii s = false -> ∃ msg, encode_error pos s = Some msg.
Proof.
  revert pos. induction s as [| c s IH]; intros pos Hs; [done |].
  simpl in *. destruct (non_ascii c); [by eexists |]. by apply IH.
Qed.

(** An ASCII unicode argument is rendered as it is; any other one raises. *)
Lemma render_ascii (s : string) : is_ascii s = true -> render (Text s) = inr s.
Proof. intros Hs. unfold render. by rewrite encode_error_ascii. Qed.

Lemma render_non_ascii (s : string) :
  is_ascii s = false -> ∃ msg, render (Text s) = inl (PyExn UnicodeEncodeError msg).
Proof.
  intros Hs. unfold render.
  destruct (encode_error_non_ascii s 0 Hs) as (msg & ->). by exists msg.
Qed.

Global Arguments render : simpl never.

(* ===================================================================== *)
(** ** InstancePool: the loop bodies                                      *)
(* ===================================================================== *)

Lemma emits_pop {A} (P : Event -> Prop) (l : list A) : emits P (InstancePool.pop l).
Proof.
  unfold InstancePool.pop. destruct (reverse l); [apply emits_raise | apply emits_ret].
Qed.

Lemma total_pop {A} (l : list A) : total (InstancePool.pop l).
Proof.
  unfold InstancePool.pop. destruct (reverse l); [apply total_raise | apply total_ret].
Qed.

Ltac emits_auto :=
  repeat first
    [ apply emits_ret | apply emits_raise | apply emits_out_of_fuel
    | apply emits_sys_exit | apply emits_fmt
    | apply emits_print | apply emits_emit | apply emits_call | apply emits_pop
    | apply emits_while_loop
    | apply emits_bind; [| intros ?]
    | apply emits_try_except; [| intros ?]
    | match goal with
      | |- emits _ (if ?b then _ else _) => destruct b eqn:?
      | |- emits _ (match ?o with _ => _ end) => destruct o eqn:?
      end ].

Ltac total_auto :=
  repeat first
    [ apply total_ret | apply total_raise | apply total_fmt | apply total_emit
    | apply total_call | apply total_pop
    | apply total_bind; [| intros ?]
    | match goal with
      | |- total (if ?b then _ else _) => destruct b eqn:?
      | |- total (match ?o with _ => _ end) => destruct o eqn:?
      end ].

Ltac unfold_body :=
  unfold body, InstancePool.start_body, InstancePool.stop_body,
    InstancePool.reboot_body, InstancePool.state_body, InstancePool.tag.

Section Bodies.
Variable env : Env.
Variable pool : InstancePool.t.

Lemma dispatch_for_each (cmd : Cli.Command) (fuel : nat) :
  Cli.dispatch env pool cmd fuel
  = for_each (InstancePool._instances pool) (body env pool cmd fuel).
Proof. by destruct cmd. Qed.

Lemma emits_wait_for (P : Event -> Prop) (fuel : nat) (i : Inst.t) (target : Z) :
  P (EvGetStatus (Inst.id i)) -> P (EvSleep 1) ->
  emits P (InstancePool.wait_for env pool fuel i target).
Proof.
  intros Hpoll Hsleep.
  unfold InstancePool.wait_for, InstancePool._get_status, InstancePool.pop.
  emits_auto; done.
Qed.

(** Whatever the flags, a command only sends its own request, and only for
    an instance it does not skip. *)
Lemma body_allowed (cmd : Cli.Command) (fuel : nat) (i : Inst.t) :
  emits (allowed cmd) (body env pool cmd fuel i).
Proof.
  destruct cmd; simpl;
    unfold InstancePool.start_body, InstancePool.stop_body,
      InstancePool.reboot_body, InstancePool.state_body, InstancePool.tag;
    emits_auto; try done;
    try (apply emits_wait_for; done);
    simpl; unfold transition;
    match goal with H : _ = false |- _ => by rewrite H end.
Qed.

Lemma state_or_not (cmd : Cli.Command) : cmd = Cli.CmdState ∨ cmd ≠ Cli.CmdState.
Proof. destruct cmd; auto. Qed.

(** An instance without a Name tag stops the command with a KeyError. *)
Lemma body_anonymous (cmd : Cli.Command) (fuel : nat) (i : Inst.t) (s : State) :
  Inst.tags i !! "Name" = None ->
  body env pool cmd fuel i s = (Raised (PyExn KeyError "'Name'"), s).
Proof. intros Hname. destruct cmd; unfold_body; unfold bind; by rewrite Hname. Qed.

(** So does, with a UnicodeEncodeError, an instance whose name is not ASCII:
    [format] fails before anything is printed or sent. *)
Lemma body_unencodable_name (cmd : Cli.Command) (i : Inst.t) (name : string) :
  Inst.tags i !! "Name" = Some name ->
  is_ascii name = false ->
  ∃ msg, ∀ fuel s,
    body env pool cmd fuel i s = (Raised (PyExn UnicodeEncodeError msg), s).
Proof.
  intros Hname Hascii. destruct (render_non_ascii name Hascii) as (msg & Hrender).
  exists msg. intros fuel s.
  destruct cmd; unfold_body; unfold bind, fmt; rewrite Hname; simpl;
    try (match goal with
         | |- context [if ?b then _ else _] => destruct b
         end; simpl);
    by rewrite Hrender.
Qed.

Lemma state_unencodable_state (i : Inst.t) (name : string) :
  Inst.tags i !! "Name" = Some name ->
  is_ascii name = true ->
  is_ascii (Inst.state i) = false ->
  ∃ msg, ∀ fuel s,
    body env pool Cli.CmdState fuel i s = (Raised (PyExn UnicodeEncodeError msg), s).
Proof.
  intros Hname Hascii Hstate. destruct (render_non_ascii _ Hstate) as (msg & Hrender).
  exists msg. intros fuel s. unfold_body; unfold bind, fmt; rewrite Hname; simpl.
  by rewrite (render_ascii name Hascii), Hrender.
Qed.


(** A turn of the loop for an instance that cannot be given its line ends
    with an exception before anything is printed or sent. *)
Lemma body_not_printable (cmd : Cli.Command) (i : Inst.t) :
  (∀ name, ¬ printable cmd i name) ->
  ∃ e, ∀ fuel s, body env pool cmd fuel i s = (Raised e, s).
Proof.
  intros Hnot. destruct (Inst.tags i !! "Name") as [name |] eqn:Hname;
    [| eexists; intros fuel s; by apply body_anonymous].
  destruct (is_ascii name) eqn:Hascii.
  2: { destruct (body_unencodable_name cmd i name Hname Hascii) as (msg & Hbad).
       by eexists. }
  destruct (state_or_not cmd) as [-> | Hcmd].
  - destruct (is_ascii (Inst.state i)) eqn:Hstate;
      [by destruct (Hnot name) |].
    destruct (state_unencodable_state i name Hname Hascii Hstate) as (msg & Hbad).
    by eexists.
  - by destruct (Hnot name).
Qed.

(** When the instance is skipped, and on a dry run, the body prints its
    notice and does nothing else. *)
Lemma body_notice_only (cmd : Cli.Command) (fuel : nat) (i : Inst.t) (name : string)
    (s : State) :
  printable cmd i name ->
  transition cmd i = None ∨ InstancePool._dry_run pool = true ->
  body env pool cmd fuel i s = (Returned tt, after s [EvPrint (notice cmd i name)]).
Proof.
  intros (Hname & Hascii & Hstate) Hwhy.
  destruct cmd; try specialize (Hstate eq_refl);
    unfold_body; unfold bind, fmt, transition, notice in *; rewrite Hname; simpl;
    rewrite ?(render_ascii name Hascii);
    try (rewrite (render_ascii _ Hstate); simpl; by rewrite append_empty_r);
    match goal with
    | |- context [if ?b then _ else _] => destruct b eqn:Htest
    end; simpl; rewrite ?(render_ascii name Hascii); try done;
    destruct Hwhy as [? | ->]; done.
Qed.

(** Otherwise the body prints its notice, sends its request, and waits. *)
Lemma body_transition (cmd : Cli.Command) (fuel : nat) (i : Inst.t) (name : string)
    (ev : Event) (s : State) :
  printable cmd i name ->
  InstancePool._dry_run pool = false ->
  transition cmd i = Some ev ->
  request env cmd (trace s ++ [EvPrint (notice cmd i name)]) i = inr () ->
  ∃ target,
    body env pool cmd fuel i s
    = InstancePool.wait_for env pool fuel i target
        (after s [EvPrint (notice cmd i name); ev]).
Proof.
  intros (Hname & Hascii & _) Hdry Hev Hreq.
  destruct cmd; unfold_body; unfold bind, fmt, transition, notice, request, call in *;
    rewrite Hname; simpl; try done;
    match goal with
    | |- context [if ?b then _ else _] => destruct b eqn:Htest
    end; simpl in *; try done;
    rewrite (render_ascii name Hascii); simpl;
    rewrite Hdry; simpl;
    match goal with
    | |- context [match ?a with inl _ => _ | inr _ => _ end] =>
        replace a with (inr () : Exn + unit) by (symmetry; exact Hreq)
    end;
    injection Hev as <-; eexists; unfold after, record; simpl;
    by rewrite <- app_assoc.
Qed.

(** The same, with the state code the command waits for. *)
Lemma body_transition_awaited (cmd : Cli.Command) (fuel : nat) (i : Inst.t) (name : string)
    (ev : Event) (s : State) :
  printable cmd i name ->
  InstancePool._dry_run pool = false ->
  transition cmd i = Some ev ->
  request env cmd (trace s ++ [EvPrint (notice cmd i name)]) i = inr () ->
  body env pool cmd fuel i s
  = InstancePool.wait_for env pool fuel i (awaited cmd)
      (after s [EvPrint (notice cmd i name); ev]).
Proof.
  intros (Hname & Hascii & _) Hdry Hev Hreq.
  destruct cmd; unfold_body; unfold bind, fmt, transition, notice, request, call in *;
    rewrite Hname; simpl; try done;
    match goal with
    | |- context [if ?b then _ else _] => destruct b eqn:Htest
    end; simpl in *; try done;
    rewrite (render_ascii name Hascii); simpl;
    rewrite Hdry; simpl;
    match goal with
    | |- context [match ?a with inl _ => _ | inr _ => _ end] =>
        replace a with (inr () : Exn + unit) by (symmetry; exact Hreq)
    end;
    injection Hev as <-; unfold after, record; simpl;
    by rewrite <- app_assoc.
Qed.

(** Without the blocking flag the wait is over before it starts. *)
Lemma wait_for_non_blocking (fuel : nat) (i : Inst.t) (target : Z) :
  InstancePool._blocking pool = false ->
  InstancePool.wait_for env pool fuel i target = ret tt.
Proof. intros Hb. unfold InstancePool.wait_for. rewrite Hb. apply while_loop_false. Qed.

Lemma bind_extends {A B} (m : M A) (k : A -> M B) (s : State) :
  (∀ a, emits (λ _, True) (k a)) ->
  ∃ t, trace (bind m k s).2 = trace (m s).2 ++ t.
Proof.
  intros Hk. unfold bind.
  destruct (m s) as [[a | e |] s']; simpl; [| exists []; by rewrite app_nil_r ..].
  destruct (Hk a s') as (t & E & _). by exists t.
Qed.

(** With the blocking flag the wait begins with a status poll. *)
Lemma wait_for_blocking_polls (fuel : nat) (i : Inst.t) (target : Z) (s : State) :
  InstancePool._blocking pool = true ->
  ∃ t, trace (InstancePool.wait_for env pool fuel i target s).2
       = trace s ++ EvGetStatus (Inst.id i) :: t.
Proof.
  intros Hb. unfold InstancePool.wait_for. rewrite Hb.
  set (sleep := call (EvSleep 1) (λ h, time_sleep env h 1)).
  set (cond := bind (InstancePool._get_status env (Inst.id i)) _).
  assert (Hsleep : emits (λ _, True) sleep) by by apply emits_call.
  assert (Hcond : emits (λ _, True) cond).
  { unfold cond, InstancePool._get_status. emits_auto; done. }
  assert (Hrest : ∃ t1, trace (while_loop fuel cond sleep s).2 = trace (cond s).2 ++ t1).
  { destruct fuel as [| n]; simpl; apply bind_extends; intros [|]; emits_auto; done. }
  destruct Hrest as (t1 & E1).
  assert (Hpoll : ∃ t2, trace (cond s).2 = trace s ++ EvGetStatus (Inst.id i) :: t2).
  { unfold cond, InstancePool._get_status, bind at 1 2, call.
    destruct (get_all_instance_status env (trace s) (Inst.id i)) as [e | l]; simpl.
    - by exists [].
    - unfold InstancePool.pop. destruct (reverse l); simpl; by exists []. }
  destruct Hpoll as (t2 & E2).
  exists (t2 ++ t1). rewrite E1, E2, <- app_assoc. done.
Qed.

(** When the provider refuses the request, the body ends with the
    provider's exception, which nothing in the class catches. *)
Lemma body_transition_raises (cmd : Cli.Command) (fuel : nat) (i : Inst.t) (name : string)
    (ev : Event) (e : Exn) (s : State) :
  printable cmd i name ->
  InstancePool._dry_run pool = false ->
  transition cmd i = Some ev ->
  request env cmd (trace s ++ [EvPrint (notice cmd i name)]) i = inl e ->
  body env pool cmd fuel i s = (Raised e, after s [EvPrint (notice cmd i name); ev]).
Proof.
  intros (Hname & Hascii & _) Hdry Hev Hreq.
  destruct cmd; unfold_body; unfold bind, fmt, transition, notice, request, call in *;
    rewrite Hname; simpl; try done;
    match goal with
    | |- context [if ?b then _ else _] => destruct b eqn:Htest
    end; simpl in *; try done;
    rewrite (render_ascii name Hascii); simpl;
    rewrite Hdry; simpl;
    match goal with
    | |- context [match ?a with inl _ => _ | inr _ => _ end] =>
        replace a with (inl e : Exn + unit) by (symmetry; exact Hreq)
    end;
    injection Hev as <-; unfold after, record; simpl;
    by rewrite <- app_assoc.
Qed.


(** Whether an instance can be given its line is decided by its tags and
    its state name. *)
Lemma printable_or_not (cmd : Cli.Command) (i : Inst.t) :
  (∃ name, printable cmd i name) ∨ (∀ name, ¬ printable cmd i name).
Proof.
  destruct (Inst.tags i !! "Name") as [name |] eqn:Hname;
    [| right; intros name (Hn & _); congruence].
  destruct (is_ascii name) eqn:Hascii;
    [| right; intros name' (Hn & Ha & _); congruence].
  destruct (state_or_not cmd) as [Hcmd | Hcmd].
  - destruct (is_ascii (Inst.state i)) eqn:Hstate.
    + left. by exists name.
    + right. intros name' (_ & _ & Hs). specialize (Hs Hcmd). congruence.
  - left. by exists name.
Qed.

End Bodies.

(* ===================================================================== *)
(** ** InstancePool: whole commands                                       *)
(* ===================================================================== *)

Section Commands.
Variable env : Env.
Variable pool : InstancePool.t.

Lemma dispatch_allowed (cmd : Cli.Command) (fuel : nat) :
  emits (allowed cmd) (Cli.dispatch env pool cmd fuel).
Proof.
  rewrite dispatch_for_each. apply emits_for_each. intros i _. apply body_allowed.
Qed.



(** A command that sends nothing (every instance skipped, or a dry run)
    only prints, needs no fuel, and returns when every instance can be
    given its line. *)
Lemma for_each_quiet (cmd : Cli.Command) (fuel : nat) (l : list Inst.t) (s : State) :
  (∀ i, In i l -> transition cmd i = None ∨ InstancePool._dry_run pool = true) ->
  ∃ t, trace (for_each l (body env pool cmd fuel) s).2 = trace s ++ t
    ∧ Forall (λ ev, is_print ev = true) t
    ∧ (for_each l (body env pool cmd fuel) s).1 ≠ OutOfFuel
    ∧ ((∀ i, In i l -> ∃ name, printable cmd i name) ->
       (for_each l (body env pool cmd fuel) s).1 = Returned tt).
Proof.
  revert s. induction l as [| i l IH]; intros s Hq; simpl.
  - exists []. by rewrite app_nil_r.
  - unfold bind. destruct (printable_or_not cmd i) as [(name & Hname) | Hnot].
    + rewrite (body_notice_only env pool cmd fuel i name s Hname (Hq i (or_introl eq_refl))).
      destruct (IH (after s [EvPrint (notice cmd i name)])) as (t & E & F & Hfuel & Hret).
      { intros j Hj. apply Hq. by right. }
      exists (EvPrint (notice cmd i name) :: t). rewrite E. simpl.
      rewrite <- app_assoc. repeat split; [by constructor | done |].
      intros Hall. apply Hret. intros j Hj. apply Hall. by right.
    + destruct (body_not_printable env pool cmd i Hnot) as (e & ->).
      exists []. rewrite app_nil_r.
      repeat split; [done | done |].
      intros Hall. destruct (Hall i (or_introl eq_refl)) as [name Hsome].
      by destruct (Hnot name).
Qed.

Lemma body_non_blocking (cmd : Cli.Command) (fuel : nat) (i : Inst.t) :
  InstancePool._blocking pool = false ->
  emits (λ ev, is_wait ev = false) (body env pool cmd fuel i)
  ∧ total (body env pool cmd fuel i).
Proof.
  intros Hb. split.
  - destruct cmd; unfold_body; rewrite ?wait_for_non_blocking by done;
      emits_auto; done.
  - destruct cmd; unfold_body; rewrite ?wait_for_non_blocking by done;
      total_auto.
Qed.

End Commands.

Lemma is_print_not_transition (ev : Event) : is_print ev = true -> is_transition ev = false.
Proof. by destruct ev. Qed.


(* ===================================================================== *)
(** ** InstancePool: a command, instance after instance                   *)
(* ===================================================================== *)

Lemma for_each_app {A} (l1 l2 : list A) (body : A -> M unit) (s : State) :
  for_each (l1 ++ l2) body s = (for_each l1 body ;; for_each l2 body) s.
Proof.
  revert s. induction l1 as [| x l1 IH]; intros s; simpl; [done |].
  unfold bind in *.
  destruct (body x s) as [[[] | e |] s1]; [| done | done].
  by rewrite IH.
Qed.

Lemma body_flags (env : Env) (dry_run blocking : bool) (l1 l2 : list Inst.t)
    (cmd : Cli.Command) (fuel : nat) :
  body env (InstancePool.mk dry_run blocking l1) cmd fuel
  = body env (InstancePool.mk dry_run blocking l2) cmd fuel.
Proof. by destruct cmd. Qed.

Lemma dispatch_app (env : Env) (dry_run blocking : bool) (l1 l2 : list Inst.t)
    (cmd : Cli.Command) (fuel : nat) (s : State) :
  Cli.dispatch env (InstancePool.mk dry_run blocking (l1 ++ l2)) cmd fuel s
  = (Cli.dispatch env (InstancePool.mk dry_run blocking l1) cmd fuel ;;
     Cli.dispatch env (InstancePool.mk dry_run blocking l2) cmd fuel) s.
Proof.
  rewrite !dispatch_for_each. simpl.
  rewrite (body_flags env dry_run blocking (l1 ++ l2) l1) at 1.
  rewrite for_each_app. unfold bind.
  by destruct (for_each l1 _ s) as [[[] | e |] s1].
Qed.

Lemma printable_name_of (cmd : Cli.Command) (i : Inst.t) (name : string) :
  printable cmd i name -> name_of i = name.
Proof. intros (Hname & _). unfold name_of. by rewrite Hname. Qed.

Lemma body_with_instances (env : Env) (pool : InstancePool.t) (l : list Inst.t)
    (cmd : Cli.Command) (fuel : nat) :
  body env (with_instances pool l) cmd fuel = body env pool cmd fuel.
Proof. by destruct cmd. Qed.

Lemma dispatch_with_instances (env : Env) (pool : InstancePool.t) (l : list Inst.t)
    (cmd : Cli.Command) (fuel : nat) :
  Cli.dispatch env (with_instances pool l) cmd fuel = for_each l (body env pool cmd fuel).
Proof. rewrite dispatch_for_each. simpl. by rewrite body_with_instances. Qed.

(** When the turns for the instances before [i] have come back, the command
    goes on with the turn for [i], and after it with the rest of the
    list. *)
Lemma dispatch_reaches (env : Env) (pool : InstancePool.t) (l1 l2 : list Inst.t)
    (i : Inst.t) (cmd : Cli.Command) (fuel : nat) (s s1 : State) :
  Cli.dispatch env (with_instances pool l1) cmd fuel s = (Returned tt, s1) ->
  Cli.dispatch env (with_instances pool (l1 ++ i :: l2)) cmd fuel s
  = (body env pool cmd fuel i ;; Cli.dispatch env (with_instances pool l2) cmd fuel) s1.
Proof.
  rewrite !dispatch_with_instances. intros Hfirst.
  rewrite for_each_app. unfold bind at 1. by rewrite Hfirst.
Qed.

(** A command on a list is the command on the instances before [i], then
    the turn for [i], then the command on the instances after it; each part
    runs only if the one before came back. *)
Lemma dispatch_split (env : Env) (pool : InstancePool.t) (l1 l2 : list Inst.t)
    (i : Inst.t) (cmd : Cli.Command) (fuel : nat) (s : State) :
  Cli.dispatch env (with_instances pool (l1 ++ i :: l2)) cmd fuel s
  = (Cli.dispatch env (with_instances pool l1) cmd fuel ;;
     body env pool cmd fuel i ;;
     Cli.dispatch env (with_instances pool l2) cmd fuel) s.
Proof. rewrite !dispatch_with_instances. by rewrite for_each_app. Qed.


(** Where the turn for [i] sends a request the provider accepts whenever it
    comes: the notice, the request, the wait. *)
Lemma dispatch_sends (env : Env) (pool : InstancePool.t) (l1 l2 : list Inst.t)
    (i : Inst.t) (name : string) (ev : Event) (cmd : Cli.Command) (fuel : nat)
    (s : State) :
  printable cmd i name ->
  InstancePool._dry_run pool = false ->
  transition cmd i = Some ev ->
  (∀ h, request env cmd h i = inr ()) ->
  Cli.dispatch env (with_instances pool (l1 ++ i :: l2)) cmd fuel s
  = (Cli.dispatch env (with_instances pool l1) cmd fuel ;;
     print (notice cmd i name) ;;
     emit ev ;;
     InstancePool.wait_for env pool fuel i (awaited cmd) ;;
     Cli.dispatch env (with_instances pool l2) cmd fuel) s.
Proof.
  intros Hname Hdry Hev Hreq. rewrite dispatch_split. unfold bind.
  destruct (Cli.dispatch env (with_instances pool l1) cmd fuel s) as [[[] | e |] s1];
    [| done | done].
  rewrite (body_transition_awaited env pool cmd fuel i name ev s1 Hname Hdry Hev (Hreq _)).
  unfold print, emit. simpl.
  replace (record ev (record (EvPrint (notice cmd i name)) s1))
    with (after s1 [EvPrint (notice cmd i name); ev]); [done |].
  unfold after, record. simpl. by rewrite <- app_assoc.
Qed.


(** The turn of the loop for an instance that can be given its line, in a
    pool that does not wait for it. *)
Lemma body_prompt (env : Env) (pool : InstancePool.t) (cmd : Cli.Command) (fuel : nat)
    (i : Inst.t) (name : string) (s : State) :
  printable cmd i name ->
  prompt env pool cmd i ->
  body env pool cmd fuel i s
  = (Returned tt, after s (effects (InstancePool._dry_run pool) cmd i)).
Proof.
  intros Hname Hprompt. unfold effects.
  rewrite (printable_name_of cmd i name Hname).
  destruct (transition cmd i) as [ev |] eqn:Hev;
    [| exact (body_notice_only env pool cmd fuel i name s Hname (or_introl Hev))].
  destruct (InstancePool._dry_run pool) eqn:Hdry;
    [exact (body_notice_only env pool cmd fuel i name s Hname (or_intror Hdry)) |].
  destruct Hprompt as [? | [? | [Hb Hreq]]]; [congruence | congruence |].
  destruct (body_transition env pool cmd fuel i name ev s Hname Hdry Hev (Hreq _))
    as (target & ->).
  by rewrite wait_for_non_blocking.
Qed.

(** A command whose every turn is of that kind returns, for any fuel, and
    its whole effect is what the turns do, in the order of the list. *)
Lemma prompt_run (env : Env) (pool : InstancePool.t) (cmd : Cli.Command) (fuel : nat)
    (l : list Inst.t) :
  (∀ i, In i l -> ∃ name, printable cmd i name) ->
  (∀ i, In i l -> prompt env pool cmd i) ->
  ∀ s, for_each l (body env pool cmd fuel) s
       = (Returned tt, after s (flat_map (effects (InstancePool._dry_run pool) cmd) l)).
Proof.
  induction l as [| i l IH]; intros Hnamed Hprompt s; simpl.
  - unfold after. rewrite app_nil_r. by destruct s.
  - destruct (Hnamed i (or_introl eq_refl)) as [name Hname].
    unfold bind.
    rewrite (body_prompt env pool cmd fuel i name s Hname (Hprompt i (or_introl eq_refl))).
    rewrite IH; [| intros j Hj; apply Hnamed; by right | intros j Hj; apply Hprompt; by right].
    unfold after. simpl. by rewrite <- app_assoc.
Qed.

Lemma effects_quiet (dry_run : bool) (cmd : Cli.Command) (i : Inst.t) :
  transition cmd i = None ∨ dry_run = true ->
  effects dry_run cmd i = [EvPrint (notice cmd i (name_of i))].
Proof.
  intros Hwhy. unfold effects.
  destruct (transition cmd i); [| done]. by destruct Hwhy as [? | ->].
Qed.

Lemma flat_map_effects_quiet (dry_run : bool) (cmd : Cli.Command) (l : list Inst.t) :
  (∀ i, In i l -> transition cmd i = None ∨ dry_run = true) ->
  flat_map (effects dry_run cmd) l = (λ i, EvPrint (notice cmd i (name_of i))) <$> l.
Proof.
  induction l as [| i l IH]; intros Hq; [done |].
  rewrite fmap_cons. cbn [flat_map].
  rewrite (effects_quiet dry_run cmd i) by (apply Hq; by left).
  rewrite IH; [done |]. intros j Hj. apply Hq. by right.
Qed.

(** A command that has nothing to send prints one notice per instance. *)
Lemma for_each_notices (env : Env) (pool : InstancePool.t) (cmd : Cli.Command)
    (fuel : nat) (l : list Inst.t) :
  (∀ i, In i l -> transition cmd i = None ∨ InstancePool._dry_run pool = true) ->
  (∀ i, In i l -> ∃ name, printable cmd i name) ->
  ∀ s, for_each l (body env pool cmd fuel) s
       = (Returned tt, after s ((λ i, EvPrint (notice cmd i (name_of i))) <$> l)).
Proof.
  intros Hquiet Hnamed s.
  rewrite (prompt_run env pool cmd fuel l Hnamed).
  - by rewrite flat_map_effects_quiet.
  - intros i Hi. destruct (Hquiet i Hi) as [? | ?]; [by left | right; by left].
Qed.


(* ===================================================================== *)
(** ** try/except                                                         *)
(* ===================================================================== *)

Section TryExcept.
Context {A : Type} (body : M A) (cls : string) (handler : Exn -> M A).

Lemma try_except_returned (s s' : State) (a : A) :
  body s = (Returned a, s') -> try_except body cls handler s = (Returned a, s').
Proof. intros Hb. unfold try_except. by rewrite Hb. Qed.

Lemma try_except_caught (s s' : State) (e : Exn) (c : ExnClass) :
  body s = (Raised e, s') -> resolve cls = Some (BExn c) -> isinstance e c = true ->
  try_except body cls handler s = handler e s'.
Proof. intros Hb Hc He. unfold try_except. by rewrite Hb, Hc, He. Qed.

Lemma try_except_passed (s s' : State) (e : Exn) (c : ExnClass) :
  body s = (Raised e, s') -> resolve cls = Some (BExn c) -> isinstance e c = false ->
  try_except body cls handler s = (Raised e, s').
Proof. intros Hb Hc He. unfold try_except. by rewrite Hb, Hc, He. Qed.

(** A clause that names a class nobody bound turns every exception that
    reaches it into a NameError; its handler never runs. *)
Lemma try_except_unbound (s s' : State) (e : Exn) :
  body s = (Raised e, s') -> resolve cls = None ->
  try_except body cls handler s
  = (Raised (PyExn NameError ("global name '" +:+ cls +:+ "' is not defined")), s').
Proof. intros Hb Hc. unfold try_except. by rewrite Hb, Hc. Qed.

End TryExcept.

Lemma resolve_NoAuthHandlerFound : resolve "NoAuthHandlerFound" = None.
Proof. by vm_compute. Qed.

Lemma resolve_EC2ResponseError : resolve "EC2ResponseError" = Some (BExn EC2ResponseError).
Proof. by vm_compute. Qed.

Lemma resolve_Exception : resolve "Exception" = Some (BExn Exception).
Proof. by vm_compute. Qed.

Lemma resolve_KeyboardInterrupt : resolve "KeyboardInterrupt" = Some (BExn KeyboardInterrupt).
Proof. by vm_compute. Qed.

(* ===================================================================== *)
(** ** InstancePool.__init__                                              *)
(* ===================================================================== *)

Section Init.
Variable env : Env.

(** A false value for the ids ends the construction at once. *)
Lemma init_no_ids (ids : PyVal) (dry_run blocking : bool) (s : State) :
  truthy ids = false ->
  InstancePool.__init__ env ids dry_run blocking s
  = (Raised (PyExit 1), after s [EvPrint "No instance ids found."]).
Proof. intros Hids. unfold InstancePool.__init__, bind. by rewrite Hids. Qed.

(** Whatever exception the connection raises, the construction ends with
    the NameError of the except clause of line 39, and prints nothing. *)
Lemma init_connect_raises (ids : PyVal) (dry_run blocking : bool) (s : State) (e : Exn) :
  truthy ids = true ->
  connect_to_region env (trace s) "us-east-1" = inl e ->
  InstancePool.__init__ env ids dry_run blocking s
  = (Raised (PyExn NameError "global name 'NoAuthHandlerFound' is not defined"),
     after s [EvConnect "us-east-1"]).
Proof.
  intros Hids Hconn. unfold InstancePool.__init__, bind at 1. rewrite Hids. simpl.
  unfold bind at 1.
  erewrite try_except_unbound; [done | | apply resolve_NoAuthHandlerFound].
  unfold call. by rewrite Hconn.
Qed.


Lemma init_succeeds (ids : PyVal) (dry_run blocking : bool) (s : State)
    (instances : list Inst.t) :
  truthy ids = true ->
  connect_to_region env (trace s) "us-east-1" = inr () ->
  get_only_instances env (trace s ++ [EvConnect "us-east-1"]) ids = inr instances ->
  InstancePool.__init__ env ids dry_run blocking s
  = (Returned (InstancePool.mk dry_run blocking instances),
     after s [EvConnect "us-east-1"; EvGetOnlyInstances ids]).
Proof.
  intros Hids Hconn Hget. unfold InstancePool.__init__, bind at 1. rewrite Hids. simpl.
  unfold bind at 1.
  erewrite try_except_returned; [| unfold call; by rewrite Hconn].
  unfold bind at 1.
  erewrite try_except_returned; [| unfold call; simpl; by rewrite Hget].
  unfold ret, after, record. simpl. by rewrite <- !app_assoc.
Qed.

End Init.

(* ===================================================================== *)
(** ** Config                                                             *)
(* ===================================================================== *)

(** Merging a mapping key by key is the union that prefers the mapping. *)
Lemma map_fold_insert_union (d m : gmap PyKey PyVal) :
  map_fold (λ k v acc, <[k:=v]> acc) d m = m ∪ d.
Proof.
  apply (map_fold_weak_ind (λ r m', r = m' ∪ d)).
  - by rewrite (left_id_L ∅ (∪)).
  - intros k v m' r Hk ->. by rewrite insert_union_l.
Qed.

Lemma state_eta (s : State) : mkState (trace s) (∅ ∪ config_data s) = s.
Proof. destruct s. simpl. by rewrite (left_id_L ∅ (∪)). Qed.

Lemma render_bytes (s : string) : render (Bytes s) = inr s.
Proof. done. Qed.

Lemma warning_line (e : Exn) (s : State) :
  (msg <- fmt "Failed to load config file: {}" [Bytes (message e)] ;; emit (EvLogWarn msg)) s
  = (Returned tt, after s [EvLogWarn ("Failed to load config file: " +:+ message e)]).
Proof.
  unfold bind, fmt, emit, after, record. simpl. rewrite ?render_bytes. simpl.
  by rewrite append_empty_r.
Qed.

Section Updating.
Variable env : Env.

Lemma update_mapping (m : gmap PyKey PyVal) (s : State) :
  Config.update env (PyDict m) s = (Returned tt, mkState (trace s) (m ∪ config_data s)).
Proof. unfold Config.update, Config.modify_data. by rewrite map_fold_insert_union. Qed.

Lemma update_not_iterable (v : PyVal) (s : State) :
  iterate (dict_keys env) v = None ->
  Config.update env v s
  = (Raised (PyExn TypeError ("'" +:+ type_name v +:+ "' object is not iterable")), s).
Proof. by destruct v. Qed.

(** What [dict.update] does is the same in every state: the outcome is the
    same, the trace is left alone, and the entries it stores are added to
    the dictionary, over the entries that were there. *)
Definition framed (m : M unit) : Prop :=
  ∃ o D,
    (∀ s, m s = (o, mkState (trace s) (D ∪ config_data s)))
    ∧ (o = Returned tt ∨ ∃ e, o = Raised e ∧ isinstance e Exception = true).

Lemma framed_raise (e : Exn) : isinstance e Exception = true -> framed (raise e).
Proof.
  intros He. exists (Raised e), ∅. split; [| right; by exists e].
  intros s. unfold raise. by rewrite state_eta.
Qed.

Lemma update_item_framed (idx : nat) (item : PyVal) :
  framed (Config.update_item env idx item).
Proof.
  unfold Config.update_item.
  destruct (iterate (dict_keys env) item) as [[| k [| v [| w l]]] |];
    try (by apply framed_raise).
  destruct (hashable k) as [key |]; [| by apply framed_raise].
  exists (Returned tt), {[key := v]}. split; [| by left].
  intros s. unfold Config.modify_data. by rewrite insert_union_singleton_l.
Qed.

Lemma update_seq_framed (idx : nat) (items : list PyVal) :
  framed (Config.update_seq env idx items).
Proof.
  revert idx. induction items as [| item rest IH]; intros idx.
  - exists (Returned tt), ∅. split; [| by left].
    intros s. unfold Config.update_seq, ret. by rewrite state_eta.
  - destruct (update_item_framed idx item) as (o1 & D1 & H1 & Ho1).
    destruct (IH (S idx)) as (o2 & D2 & H2 & Ho2).
    destruct o1 as [[] | e |].
    + exists o2, (D2 ∪ D1). split; [| done].
      intros s. simpl. unfold bind. rewrite H1, H2. simpl.
      by rewrite (assoc_L (∪)).
    + exists (Raised e), D1. split; [| done].
      intros s. simpl. unfold bind. by rewrite H1.
    + destruct Ho1 as [? | (? & ? & _)]; done.
Qed.

Lemma update_framed (v : PyVal) : framed (Config.update env v).
Proof.
  destruct v as [| z | str | l | d | b | f];
    try (by apply framed_raise);
    try (by apply update_seq_framed).
  exists (Returned tt), d. split; [| by left].
  intros s. apply update_mapping.
Qed.

Lemma update_frame (v : PyVal) (s : State) :
  Config.update env v s
  = (match failure_of env v with Some e => Raised e | None => Returned tt end,
     mkState (trace s) (stored_of env v ∪ config_data s)).
Proof.
  destruct (update_framed v) as (o & D & H & Ho).
  unfold failure_of, stored_of. rewrite !H. simpl.
  rewrite (right_id_L ∅ (∪)).
  destruct Ho as [-> | (e & -> & _)]; done.
Qed.

Lemma failure_is_exception (v : PyVal) (e : Exn) :
  failure_of env v = Some e -> isinstance e Exception = true.
Proof.
  destruct (update_framed v) as (o & D & H & Ho).
  unfold failure_of. rewrite H. simpl.
  destruct Ho as [-> | (e' & -> & He)]; [done |]. by intros [= <-].
Qed.

Lemma update_is_update_like (v : PyVal) : update_like (Config.update env v).
Proof.
  intros s. rewrite update_frame. simpl. split; [done |].
  destruct (failure_of env v) as [e |] eqn:Hf; [| by left].
  right. exists e. split; [done |]. by apply (failure_is_exception v).
Qed.

Lemma emits_update (P : Event -> Prop) (v : PyVal) : emits P (Config.update env v).
Proof.
  intros s. exists []. rewrite app_nil_r.
  split; [apply update_is_update_like | done].
Qed.

(** A mapping stores its entries and does not fail. *)
Lemma stored_mapping (m : gmap PyKey PyVal) : stored_of env (PyDict m) = m.
Proof. unfold stored_of. rewrite update_mapping. simpl. by rewrite (right_id_L ∅ (∪)). Qed.

Lemma failure_mapping (m : gmap PyKey PyVal) : failure_of env (PyDict m) = None.
Proof. unfold failure_of. by rewrite update_mapping. Qed.

(** A value that cannot be iterated over stores nothing. *)
Lemma stored_not_iterable (v : PyVal) :
  iterate (dict_keys env) v = None -> stored_of env v = ∅.
Proof. intros Hv. unfold stored_of. by rewrite update_not_iterable. Qed.

Lemma failure_not_iterable (v : PyVal) :
  iterate (dict_keys env) v = None ->
  failure_of env v
  = Some (PyExn TypeError ("'" +:+ type_name v +:+ "' object is not iterable")).
Proof. intros Hv. unfold failure_of. by rewrite update_not_iterable. Qed.

Lemma update_item_pair (idx : nat) (item : PyVal) (k : PyKey) (v : PyVal) (s : State) :
  as_pair env item = Some (k, v) ->
  Config.update_item env idx item s
  = (Returned tt, mkState (trace s) (<[k:=v]> (config_data s))).
Proof.
  unfold as_pair, Config.update_item.
  destruct (iterate (dict_keys env) item) as [[| k0 [| v0 [| w l]]] |]; try done.
  destruct (hashable k0); simpl; try done. by intros [= <- <-].
Qed.

Lemma update_item_not_pair (idx : nat) (item : PyVal) (s : State) :
  as_pair env item = None ->
  ∃ c msg, Config.update_item env idx item s = (Raised (PyExn c msg), s)
           ∧ (c = TypeError ∨ c = ValueError).
Proof.
  unfold as_pair, Config.update_item.
  destruct (iterate (dict_keys env) item) as [[| k0 [| v0 [| w l]]] |];
    try (destruct (hashable k0); simpl; try done);
    intros _; eexists _, _; (split; [reflexivity | eauto]).
Qed.

Lemma update_seq_leading_pairs (items : list PyVal) :
  ∀ idx s,
    trace (Config.update_seq env idx items s).2 = trace s
    ∧ config_data (Config.update_seq env idx items s).2
      = store (config_data s) (leading_pairs env items)
    ∧ ((Config.update_seq env idx items s).1 = Returned tt
       ↔ Forall (λ item, is_Some (as_pair env item)) items)
    ∧ ((Config.update_seq env idx items s).1 = Returned tt
       ∨ ∃ c msg, (Config.update_seq env idx items s).1 = Raised (PyExn c msg)
                  ∧ (c = TypeError ∨ c = ValueError)).
Proof.
  induction items as [| item rest IH]; intros idx s; simpl.
  - repeat split; [done | by left].
  - unfold bind. destruct (as_pair env item) as [[k v] |] eqn:Hpair.
    + rewrite (update_item_pair idx item k v s Hpair).
      destruct (IH (S idx) (mkState (trace s) (<[k:=v]> (config_data s))))
        as (Ht & Hd & Hret & Hexn).
      split; [exact Ht |]. split; [exact Hd |]. split; [| exact Hexn].
      rewrite Hret. split.
      * intros Hall. constructor; [by rewrite Hpair | done].
      * by inversion 1.
    + destruct (update_item_not_pair idx item s Hpair) as (c & msg & -> & Hc).
      simpl. split; [done |]. split; [done |]. split.
      * split; [done |]. inversion 1 as [| ? ? [? Hsome] ?]. congruence.
      * right. by exists c, msg.
Qed.

(** A list stores the pairs it begins with, and fails unless every element
    is a pair. *)
Lemma stored_list (items : list PyVal) :
  stored_of env (PyList items) = store ∅ (leading_pairs env items).
Proof.
  unfold stored_of.
  change (Config.update env (PyList items)) with (Config.update_seq env 0 items).
  by destruct (update_seq_leading_pairs items 0%nat (mkState [] ∅)) as (_ & -> & _).
Qed.

Lemma failure_list (items : list PyVal) :
  failure_of env (PyList items) = None
  ↔ Forall (λ item, is_Some (as_pair env item)) items.
Proof.
  destruct (update_seq_leading_pairs items 0%nat (mkState [] ∅)) as (_ & _ & <- & Hexn).
  unfold failure_of.
  change (Config.update env (PyList items)) with (Config.update_seq env 0 items).
  destruct (Config.update_seq env 0 items (mkState [] ∅)) as [[[] | e |] s1]; simpl in *;
    try done.
  destruct Hexn as [? | (? & ? & ? & _)]; done.
Qed.

(** A text that is not empty stores nothing: its first character is not a
    pair. *)
Lemma stored_text (c : ascii) (text : string) :
  stored_of env (PyStr (String c text)) = ∅.
Proof. done. Qed.

Lemma failure_text (c : ascii) (text : string) :
  failure_of env (PyStr (String c text))
  = Some (PyExn ValueError
            "dictionary update sequence element #0 has length 1; 2 is required").
Proof. done. Qed.

End Updating.

Section Loading.
Variable env : Env.

(** Loading a file: the file is opened; a failure to read it, or to merge
    what was read, is logged as a warning and is not fatal, unless reading
    raises something that is not an Exception (an interrupt).  The entries
    the merge stored, if it got that far, are in the dictionary, over the
    entries that were there. *)
Lemma load_config (type : Config.FileType) (r : Exn + PyVal) (s : State) :
  read_yaml env (trace s) (Config.config_file_path env type) = r ->
  (∀ e, r = inl e -> isinstance e Exception = true) ->
  Config._load_config env type s
  = (Returned tt,
     mkState (trace s ++ EvOpen (Config.config_file_path env type) :: warning env r)
             (stored env r ∪ config_data s)).
Proof.
  intros Hread Hexn. unfold Config._load_config, try_except.
  unfold bind at 1. unfold call. rewrite Hread.
  destruct r as [e | v]; simpl.
  - rewrite (Hexn e eq_refl), warning_line.
    unfold after, record, warning. simpl.
    by rewrite <- app_assoc, (left_id_L ∅ (∪)).
  - rewrite update_frame. unfold warning, failure, stored.
    destruct (failure_of env v) as [e |] eqn:Hf; simpl; [| done].
    rewrite (failure_is_exception env v e Hf), warning_line.
    unfold after, record. simpl. by rewrite <- app_assoc.
Qed.

Lemma load_mapping (type : Config.FileType) (m : gmap PyKey PyVal) (s : State) :
  read_yaml env (trace s) (Config.config_file_path env type) = inr (PyDict m) ->
  Config._load_config env type s
  = (Returned tt,
     mkState (trace s ++ [EvOpen (Config.config_file_path env type)])
             (m ∪ config_data s)).
Proof.
  intros Hread. rewrite (load_config type _ s Hread) by done.
  unfold warning, failure, stored. by rewrite failure_mapping, stored_mapping.
Qed.

Lemma emits_load_config (type : Config.FileType) :
  emits (λ ev, is_config ev = true) (Config._load_config env type).
Proof.
  unfold Config._load_config.
  emits_auto; try done. apply emits_update.
Qed.

Lemma emits_config_init : emits (λ ev, is_config ev = true) (Config.__init__ env).
Proof.
  unfold Config.__init__, Config._load_site_config, Config._load_user_config.
  apply emits_bind; [| intros _; apply emits_bind; [| intros _]];
    try apply emits_load_config.
  intros s. exists []. by rewrite app_nil_r.
Qed.

End Loading.

Lemma config_init_unfold (env : Env) (s : State) :
  Config.__init__ env s
  = match Config._load_config env Config.site (mkState (trace s) ∅) with
    | (Returned _, s1) => Config._load_config env Config.user s1
    | (Raised e, s1) => (Raised e, s1)
    | (OutOfFuel, s1) => (OutOfFuel, s1)
    end.
Proof. reflexivity. Qed.

(* ===================================================================== *)
(** ** main                                                               *)
(* ===================================================================== *)

Lemma is_config_not_provider (ev : Event) : is_config ev = true -> is_provider ev = false.
Proof. by destruct ev. Qed.

(** In group mode, a group whose value is false (or that is missing) ends
    [main] in the constructor of the pool. *)
Lemma main_no_ids (env : Env) (args : Cli.Args) (fuel : nat) (s sc : State) :
  Cli.group args = true ->
  Config.__init__ env (record (EvBasicConfig (Cli.log_level args)) s) = (Returned tt, sc) ->
  truthy (default PyNone (config_data sc !! KStr (Cli.instances args))) = false ->
  Cli.main env args fuel s
  = (Raised (PyExit 1), after sc [EvPrint "No instance ids found."]).
Proof.
  intros Hgroup Hcfg Hids. unfold Cli.main.
  unfold bind at 1. unfold emit.
  unfold bind at 1. rewrite Hcfg.
  unfold bind at 1. rewrite Hgroup. unfold Config.get.
  unfold bind at 1. by rewrite init_no_ids.
Qed.

Lemma emits_get (P : Event -> Prop) (key : string) : emits P (Config.get key).
Proof. intros s. exists []. by rewrite app_nil_r. Qed.

Lemma emits_split (P : Event -> Prop) (str sep : string) : emits P (Cli.split str sep).
Proof.
  unfold Cli.split. destruct (bool_decide (sep = "")); [apply emits_raise | apply emits_ret].
Qed.

Lemma init_no_transition (env : Env) (ids : PyVal) (dry_run blocking : bool) :
  emits (λ ev, is_transition ev = false) (InstancePool.__init__ env ids dry_run blocking).
Proof. unfold InstancePool.__init__. emits_auto; done. Qed.



(* ===================================================================== *)
(** ** Properties                                                         *)
(* ===================================================================== *)

(** C1.  An authentication failure does not reach the friendly exit that
    lines 39-41 intend.  Without credentials [connect_to_region] raises
    NoAuthHandlerFound; the except clause of line 39 names a class the
    module never imports, so the construction ends with a NameError, the
    authentication message is not printed, and the process dies with a
    traceback. *)
Theorem authentication_failure_ends_in_NameError :
  InstancePool.__init__ Demo.no_auth (PyList [PyStr "i-1"]) false true initial
  = (Raised (PyExn NameError "global name 'NoAuthHandlerFound' is not defined"),
     after initial [EvConnect "us-east-1"])
  ∧ Cli.script Demo.no_auth (Demo.args false false false Cli.CmdStart "i-1") 5 initial
    = (Some 1,
       {| trace :=
            [ EvBasicConfig 50; EvOpen "/etc/imgr.yaml"; EvOpen "/home/ops/.imgr.yaml";
              EvConnect "us-east-1";
              EvTraceback
                (PyExn NameError "global name 'NoAuthHandlerFound' is not defined") ];
          config_data := Demo.user_yaml ∪ Demo.site_yaml |}).
Proof. split; by vm_compute. Qed.



(** A name that is not ASCII ends the command before the first notice. *)
Example run_stop_unicode_name :
  InstancePool.stop Demo.env (InstancePool.mk true true [Demo.cafe; Demo.web1]) 0 initial
  = (Raised (PyExn UnicodeEncodeError
       "'ascii' codec can't encode character u'\xe9' in position 3: ordinal not in range(128)"),
     initial).
Proof. by vm_compute. Qed.



(** C5, as the code has it.  Each file contributes the entries that
    [dict.update] stored from it before it came back or failed, and at most
    one warning, for its failure.  As long as reading raises Exceptions only,
    the construction returns after opening the site file and then the user
    file; the dictionary holds the user file's entries over the site
    file's.  When both files hold a mapping that is the union of the two,
    with the user's value on every shared key, and there is no warning.  A
    file fails, with its warning, when it cannot be opened or parsed, when it
    holds nothing to iterate over (an empty file, a number), when it holds a
    text that is not empty, and when it holds a list with an element that
    is not a key and a value.  The other file's entry is intact on every key
    the failing file stored nothing for: on all keys, except for a list
    that begins with pairs, whose pairs are stored before the failure. *)
Theorem config_is_user_over_site (env : Env) (rs ru : Exn + PyVal) (s : State) :
  read_yaml env (trace s) "/etc/imgr.yaml" = rs ->
  read_yaml env (trace s ++ EvOpen "/etc/imgr.yaml" :: warning env rs)
    (home env +:+ "/.imgr.yaml") = ru ->
  (∀ e, rs = inl e -> isinstance e Exception = true) ->
  (∀ e, ru = inl e -> isinstance e Exception = true) ->
  Config.__init__ env s
  = (Returned tt,
     mkState (trace s ++ EvOpen "/etc/imgr.yaml" :: warning env rs
                      ++ EvOpen (home env +:+ "/.imgr.yaml") :: warning env ru)
             (stored env ru ∪ stored env rs))
  ∧ (∀ ms mu, rs = inr (PyDict ms) -> ru = inr (PyDict mu) ->
       Config.__init__ env s
       = (Returned tt,
          mkState (trace s ++ [EvOpen "/etc/imgr.yaml"; EvOpen (home env +:+ "/.imgr.yaml")])
                  (mu ∪ ms))
       ∧ ∀ k, is_Some (ms !! k) -> is_Some (mu !! k) ->
           config_data (Config.__init__ env s).2 !! k = mu !! k)
  ∧ (∀ k v, stored env ru !! k = Some v ->
       config_data (Config.__init__ env s).2 !! k = Some v)
  ∧ (∀ k, stored env ru !! k = None ->
       config_data (Config.__init__ env s).2 !! k = stored env rs !! k)
  ∧ (stored env ru = ∅ -> config_data (Config.__init__ env s).2 = stored env rs)
  ∧ (stored env rs = ∅ -> config_data (Config.__init__ env s).2 = stored env ru)
  ∧ (∀ r, warning env r
          = match failure env r with
            | Some e => [EvLogWarn ("Failed to load config file: " +:+ message e)]
            | None => []
            end)
  ∧ (∀ e, stored env (inl e) = ∅ ∧ failure env (inl e) = Some e)
  ∧ (∀ m, stored env (inr (PyDict m)) = m ∧ failure env (inr (PyDict m)) = None)
  ∧ (∀ v, iterate (dict_keys env) v = None ->
       stored env (inr v) = ∅
       ∧ failure env (inr v)
         = Some (PyExn TypeError ("'" +:+ type_name v +:+ "' object is not iterable")))
  ∧ (∀ c text,
       stored env (inr (PyStr (String c text))) = ∅
       ∧ failure env (inr (PyStr (String c text)))
         = Some (PyExn ValueError
                   "dictionary update sequence element #0 has length 1; 2 is required"))
  ∧ (∀ items,
       stored env (inr (PyList items)) = store ∅ (leading_pairs env items)
       ∧ (failure env (inr (PyList items)) = None
          ↔ Forall (λ item, is_Some (as_pair env item)) items)).
Proof.
  intros Hs Hu Hes Heu.
  assert (Hinit : Config.__init__ env s
                  = (Returned tt,
                     mkState (trace s ++ EvOpen "/etc/imgr.yaml" :: warning env rs
                                ++ EvOpen (home env +:+ "/.imgr.yaml") :: warning env ru)
                             (stored env ru ∪ stored env rs))).
  { rewrite config_init_unfold.
    rewrite (load_config env Config.site rs (mkState (trace s) ∅) Hs Hes).
    cbn iota.
    erewrite load_config; [| exact Hu | exact Heu].
    simpl. by rewrite (right_id_L ∅ (∪)), <- app_assoc. }
  split; [exact Hinit |]. rewrite Hinit. simpl.
  split; [| split; [| split; [| split; [| split; [| split; [| split; [| split;
    [| split; [| split]]]]]]]]].
  - intros ms mu -> ->. unfold warning, failure, stored.
    rewrite !failure_mapping, !stored_mapping. split; [done |].
    intros k _ [v Hv]. rewrite Hv. by apply lookup_union_Some_l.
  - intros k v Hk. by apply lookup_union_Some_l.
  - intros k Hk. by rewrite lookup_union_r.
  - intros ->. by rewrite (left_id_L ∅ (∪)).
  - intros ->. by rewrite (right_id_L ∅ (∪)).
  - done.
  - done.
  - intros m. simpl. by rewrite failure_mapping, stored_mapping.
  - intros v Hv. simpl. by rewrite failure_not_iterable, stored_not_iterable.
  - done.
  - intros items. simpl. split; [apply stored_list | apply failure_list].
Qed.

Lemma config_is_user_over_site_witness :
  Config.__init__ Demo.env initial
  = (Returned tt,
     mkState [EvOpen "/etc/imgr.yaml"; EvOpen "/home/ops/.imgr.yaml"]
             (Demo.user_yaml ∪ Demo.site_yaml))
  ∧ config_data (Config.__init__ Demo.env initial).2 !! KStr "web"
    = Some (PyList [PyStr "i-9"]).
Proof.
  destruct (config_is_user_over_site Demo.env (inr (PyDict Demo.site_yaml))
              (inr (PyDict Demo.user_yaml)) initial)
    as (_ & Hboth & _); [by vm_compute | by vm_compute | done | done |].
  destruct (Hboth Demo.site_yaml Demo.user_yaml eq_refl eq_refl) as [Hrun Hshared].
  split; [exact Hrun |].
  rewrite (Hshared (KStr "web")); [by vm_compute | by eexists | by eexists].
Defined.

(** A user file that holds a plain text, as a file written [web = i-1]
    does: a warning, and the site file's entries. *)
Example config_with_text_user_file :
  ∀ env : Env,
    (∀ h, read_yaml env h "/etc/imgr.yaml" = inr (PyDict Demo.site_yaml)) ->
    (∀ h, read_yaml env h (home env +:+ "/.imgr.yaml") = inr (PyStr "web = i-1")) ->
    Config.__init__ env initial
    = (Returned tt,
       mkState
         [ EvOpen "/etc/imgr.yaml"; EvOpen (home env +:+ "/.imgr.yaml");
           EvLogWarn ("Failed to load config file: "
                      +:+ "dictionary update sequence element #0 has length 1; 2 is required") ]
         Demo.site_yaml).
Proof.
  intros env Hsite Huser. rewrite config_init_unfold.
  rewrite (load_config env Config.site (inr (PyDict Demo.site_yaml)) (mkState [] ∅))
    by (done || apply Hsite).
  cbn iota.
  erewrite load_config; [| apply Huser | done].
  unfold warning, failure, stored.
  rewrite failure_mapping, stored_mapping, failure_text, stored_text.
  simpl. by rewrite (left_id_L ∅ (∪)), (right_id_L ∅ (∪)).
Qed.

(** A missing user file: a warning, and the site file's entries. *)
Example config_without_user_file :
  Config.__init__ Demo.no_user_file initial
  = (Returned tt,
     mkState
       [ EvOpen "/etc/imgr.yaml"; EvOpen "/home/ops/.imgr.yaml";
         EvLogWarn ("Failed to load config file: "
                    +:+ "[Errno 2] No such file or directory: '/home/ops/.imgr.yaml'") ]
       Demo.site_yaml).
Proof. by vm_compute. Qed.

(** C5, where leaving the other file's entries intact fails.  The user
    file holds the sequence
    [[web, [i-9]], [oops]]: loading it fails and is logged as a warning, and
    yet the site file's entry for web has been replaced. *)
Lemma failed_user_file_replaces_site_entry :
  (Config.__init__ Demo.broken_user initial).1 = Returned tt
  ∧ trace (Config.__init__ Demo.broken_user initial).2
    = [ EvOpen "/etc/imgr.yaml"; EvOpen "/home/ops/.imgr.yaml";
        EvLogWarn ("Failed to load config file: "
                   +:+ "dictionary update sequence element #1 has length 1; 2 is required") ]
  ∧ Demo.site_yaml !! KStr "web" = Some (PyList [PyStr "i-1"; PyStr "i-2"])
  ∧ config_data (Config.__init__ Demo.broken_user initial).2 !! KStr "web"
    = Some (PyList [PyStr "i-9"])
  ∧ ¬ (∀ k v, Demo.site_yaml !! k = Some v ->
         config_data (Config.__init__ Demo.broken_user initial).2 !! k = Some v).
Proof.
  repeat split; try by vm_compute.
  intros Hintact.
  specialize (Hintact (KStr "web") (PyList [PyStr "i-1"; PyStr "i-2"])).
  vm_compute in Hintact. specialize (Hintact eq_refl). discriminate Hintact.
Qed.

(** C6.  Constructing a pool with an empty list of ids prints the
    no-instance-ids line and exits with status 1; nothing else happens, in
    particular no call to the provider.  When [main] gets that empty list
    from a group of the configuration, the status of the process is 1. *)
Theorem empty_id_list_exits_before_connecting (env : Env) (dry_run blocking : bool)
    (s : State) :
  InstancePool.__init__ env (PyList []) dry_run blocking s
  = (Raised (PyExit 1), after s [EvPrint "No instance ids found."])
  ∧ Forall (λ ev, is_provider ev = false) [EvPrint "No instance ids found."]
  ∧ (∀ args fuel s0 sc,
       Cli.group args = true ->
       Config.__init__ env (record (EvBasicConfig (Cli.log_level args)) s0)
         = (Returned tt, sc) ->
       config_data sc !! KStr (Cli.instances args) = Some (PyList []) ->
       Cli.script env args fuel s0
       = (Some 1, after sc [EvPrint "No instance ids found."])).
Proof.
  split; [by apply init_no_ids |]. split; [by repeat constructor |].
  intros args fuel s0 sc Hgroup Hcfg Hempty. unfold Cli.script.
  rewrite (main_no_ids env args fuel s0 sc Hgroup Hcfg); [done |].
  by rewrite Hempty.
Qed.

(** C7.  Without the blocking flag a command never polls the status of an
    instance and never sleeps, and it needs no fuel.  Its turn for an
    instance it does not skip ends right after the request is sent, where
    the same turn with the blocking flag goes on with a status poll; the
    instance is one that can be given its line (it has a Name tag, and the
    name is ASCII).  In a whole run: once the turns before such an instance
    have come back, the run sends the request and goes straight on with
    the rest of the list, where the run of a blocking pool polls the status
    of the instance first.  When the provider accepts the request whenever
    it comes, the whole run is the run on the instances before, the notice,
    the request, and the run on the instances after, where the run of a
    blocking pool has the wait, which begins with a status poll, between the
    request and the rest.  When every instance can be given its line and
    the provider accepts every request, the run returns with the notice and
    the request of each instance in order, and nothing else. *)
Theorem non_blocking_never_waits (env : Env) (pool : InstancePool.t)
    (cmd : Cli.Command) (fuel : nat) (s : State) :
  InstancePool._blocking pool = false ->
  (Cli.dispatch env pool cmd fuel s).1 ≠ OutOfFuel
  ∧ (∃ t, trace (Cli.dispatch env pool cmd fuel s).2 = trace s ++ t
       ∧ Forall (λ ev, is_wait ev = false) t)
  ∧ (∀ i name ev s0,
       printable cmd i name ->
       InstancePool._dry_run pool = false ->
       transition cmd i = Some ev ->
       request env cmd (trace s0 ++ [EvPrint (notice cmd i name)]) i = inr () ->
       body env pool cmd fuel i s0
       = (Returned tt, after s0 [EvPrint (notice cmd i name); ev])
       ∧ ∀ blocking_pool,
           InstancePool._blocking blocking_pool = true ->
           InstancePool._dry_run blocking_pool = false ->
           ∃ t, trace (body env blocking_pool cmd fuel i s0).2
                = trace s0
                  ++ [EvPrint (notice cmd i name); ev; EvGetStatus (Inst.id i)] ++ t)
  ∧ (∀ l1 i l2 name ev s1,
       Cli.dispatch env (with_instances pool l1) cmd fuel s = (Returned tt, s1) ->
       printable cmd i name ->
       InstancePool._dry_run pool = false ->
       transition cmd i = Some ev ->
       request env cmd (trace s1 ++ [EvPrint (notice cmd i name)]) i = inr () ->
       Cli.dispatch env (with_instances pool (l1 ++ i :: l2)) cmd fuel s
       = Cli.dispatch env (with_instances pool l2) cmd fuel
           (after s1 [EvPrint (notice cmd i name); ev]))
  ∧ (∀ blocking_pool l1 i l2 name ev s1,
       InstancePool._blocking blocking_pool = true ->
       InstancePool._dry_run blocking_pool = false ->
       Cli.dispatch env (with_instances blocking_pool l1) cmd fuel s = (Returned tt, s1) ->
       printable cmd i name ->
       transition cmd i = Some ev ->
       request env cmd (trace s1 ++ [EvPrint (notice cmd i name)]) i = inr () ->
       ∃ t, trace (Cli.dispatch env (with_instances blocking_pool (l1 ++ i :: l2))
                     cmd fuel s).2
            = trace s1 ++ [EvPrint (notice cmd i name); ev; EvGetStatus (Inst.id i)] ++ t)
  ∧ (∀ l1 i l2 name ev,
       printable cmd i name ->
       InstancePool._dry_run pool = false ->
       transition cmd i = Some ev ->
       (∀ h, request env cmd h i = inr ()) ->
       Cli.dispatch env (with_instances pool (l1 ++ i :: l2)) cmd fuel s
       = (Cli.dispatch env (with_instances pool l1) cmd fuel ;;
          print (notice cmd i name) ;;
          emit ev ;;
          Cli.dispatch env (with_instances pool l2) cmd fuel) s
       ∧ ∀ blocking_pool,
           InstancePool._blocking blocking_pool = true ->
           InstancePool._dry_run blocking_pool = false ->
           Cli.dispatch env (with_instances blocking_pool (l1 ++ i :: l2)) cmd fuel s
           = (Cli.dispatch env (with_instances blocking_pool l1) cmd fuel ;;
              print (notice cmd i name) ;;
              emit ev ;;
              InstancePool.wait_for env blocking_pool fuel i (awaited cmd) ;;
              Cli.dispatch env (with_instances blocking_pool l2) cmd fuel) s
           ∧ ∀ s0, ∃ t,
               trace (InstancePool.wait_for env blocking_pool fuel i (awaited cmd) s0).2
               = trace s0 ++ EvGetStatus (Inst.id i) :: t)
  ∧ ((∀ i, In i (InstancePool._instances pool) -> ∃ name, printable cmd i name) ->
     (∀ i h, In i (InstancePool._instances pool) -> request env cmd h i = inr ()) ->
     Cli.dispatch env pool cmd fuel s
     = (Returned tt,
        after s (flat_map (effects (InstancePool._dry_run pool) cmd)
                   (InstancePool._instances pool)))).
Proof.
  intros Hb.
  assert (Hturn : ∀ blocking_pool i name ev s0,
            InstancePool._blocking blocking_pool = true ->
            InstancePool._dry_run blocking_pool = false ->
            printable cmd i name ->
            transition cmd i = Some ev ->
            request env cmd (trace s0 ++ [EvPrint (notice cmd i name)]) i = inr () ->
            ∃ t, trace (body env blocking_pool cmd fuel i s0).2
                 = trace s0
                   ++ [EvPrint (notice cmd i name); ev; EvGetStatus (Inst.id i)] ++ t).
  { intros pool' i name ev s0 Hb' Hdry' Hname Hev Hreq.
    destruct (body_transition env pool' cmd fuel i name ev s0 Hname Hdry' Hev Hreq)
      as (target & ->).
    destruct (wait_for_blocking_polls env pool' fuel i target
                (after s0 [EvPrint (notice cmd i name); ev]) Hb') as (t & E).
    exists t. rewrite E. simpl. by rewrite <- app_assoc. }
  split; [| split; [| split; [| split; [| split; [| split]]]]].
  - rewrite dispatch_for_each. apply total_for_each.
    intros i _. by apply body_non_blocking.
  - rewrite dispatch_for_each. apply emits_for_each.
    intros i _. by apply body_non_blocking.
  - intros i name ev s0 Hname Hdry Hev Hreq. split.
    + destruct (body_transition env pool cmd fuel i name ev s0 Hname Hdry Hev Hreq)
        as (target & ->).
      by rewrite wait_for_non_blocking.
    + intros pool' Hb' Hdry'. by apply Hturn.
  - intros l1 i l2 name ev s1 Hfirst Hname Hdry Hev Hreq.
    rewrite (dispatch_reaches env pool l1 l2 i cmd fuel s s1 Hfirst). unfold bind.
    destruct (body_transition env pool cmd fuel i name ev s1 Hname Hdry Hev Hreq)
      as (target & ->).
    by rewrite wait_for_non_blocking.
  - intros pool' l1 i l2 name ev s1 Hb' Hdry' Hfirst Hname Hev Hreq.
    rewrite (dispatch_reaches env pool' l1 l2 i cmd fuel s s1 Hfirst).
    destruct (bind_extends (body env pool' cmd fuel i)
                (λ _, Cli.dispatch env (with_instances pool' l2) cmd fuel) s1) as (t2 & E2).
    { intros _. eapply emits_weaken; [| apply dispatch_allowed]. done. }
    destruct (Hturn pool' i name ev s1 Hb' Hdry' Hname Hev Hreq) as (t1 & E1).
    exists (t1 ++ t2). rewrite E2, E1. by rewrite <- !app_assoc.
  - intros l1 i l2 name ev Hname Hdry Hev Hreq. split.
    + rewrite (dispatch_sends env pool l1 l2 i name ev cmd fuel s Hname Hdry Hev Hreq).
      rewrite (wait_for_non_blocking env pool fuel i (awaited cmd) Hb).
      unfold bind.
      by destruct (Cli.dispatch env (with_instances pool l1) cmd fuel s) as [[[] | e |] s1].
    + intros pool' Hb' Hdry'. split.
      * by apply dispatch_sends.
      * intros s0. by apply wait_for_blocking_polls.
  - intros Hnamed Hreq. rewrite dispatch_for_each.
    apply prompt_run; [done |].
    intros i Hi. right. right. split; [done |]. intros h. by apply Hreq.
Qed.

Lemma non_blocking_never_waits_witness :
  Cli.dispatch Demo.env (Demo.pool false false) Cli.CmdStart 0 initial
  = (Returned tt,
     after initial
       [ EvPrint "Instance web-1 is already running, skip it.";
         EvPrint "Starting web-2..."; EvStart Demo.web2 ])
  ∧ (Cli.dispatch Demo.env (Demo.pool false false) Cli.CmdStart 0 initial).1 ≠ OutOfFuel.
Proof.
  split; [by vm_compute |].
  exact (proj1 (non_blocking_never_waits Demo.env (Demo.pool false false) Cli.CmdStart 0
                  initial eq_refl)).
Defined.


Example run_state :
  Cli.dispatch Demo.env (Demo.pool false true) Cli.CmdState 0 initial
  = (Returned tt,
     after initial
       [ EvPrint "Instance web-1 state: running";
         EvPrint "Instance web-2 state: stopped" ]).
Proof. by vm_compute. Qed.

Example run_reboot_blocking :
  InstancePool.reboot Demo.env (Demo.pool false true) 2 initial
  = (Returned tt,
     after initial
       [ EvPrint "Rebooting web-1..."; EvReboot Demo.web1;
         EvGetStatus "i-1"; EvSleep 1; EvGetStatus "i-1"; EvSleep 1; EvGetStatus "i-1";
         EvPrint "Instance web-2 is not running, skip it." ]).
Proof. by vm_compute. Qed.

(** With too little fuel the blocking wait does not come back. *)
Example run_reboot_out_of_fuel :
  (InstancePool.reboot Demo.env (Demo.pool false true) 1 initial).1 = OutOfFuel.
Proof. by vm_compute. Qed.

(** An instance without a Name tag ends the command with a KeyError. *)
Example run_stop_anonymous :
  InstancePool.stop Demo.env (InstancePool.mk false true [Demo.anon; Demo.web1]) 2 initial
  = (Raised (PyExn KeyError "'Name'"), initial).
Proof. by vm_compute. Qed.



(** [imgr start i-0] when the provider does not know i-0: status 1. *)
Example run_unknown_id :
  Cli.script Demo.unknown_id (Demo.args false false false Cli.CmdStart "i-0") 5 initial
  = (Some 1,
     {| trace :=
          [ EvBasicConfig 50; EvOpen "/etc/imgr.yaml"; EvOpen "/home/ops/.imgr.yaml";
            EvConnect "us-east-1"; EvGetOnlyInstances (PyList [PyStr "i-0"]);
            EvPrint "Error connecting instances: The instance ID 'i-0' does not exist" ];
        config_data := Demo.user_yaml ∪ Demo.site_yaml |}).
Proof. by vm_compute. Qed.

(** C10.  In group mode, when the merged configuration has no entry for the
    name given, the lookup yields None, the constructor of the pool rejects
    it with the no-instance-ids line, and the process exits with status 1
    before any call to the provider. *)
Theorem missing_group_exits_before_connecting (env : Env) (args : Cli.Args) (fuel : nat)
    (s sc : State) :
  Cli.group args = true ->
  Config.__init__ env (record (EvBasicConfig (Cli.log_level args)) s) = (Returned tt, sc) ->
  config_data sc !! KStr (Cli.instances args) = None ->
  Config.get (Cli.instances args) sc = (Returned PyNone, sc)
  ∧ Cli.main env args fuel s
    = (Raised (PyExit 1), after sc [EvPrint "No instance ids found."])
  ∧ Cli.script env args fuel s = (Some 1, after sc [EvPrint "No instance ids found."])
  ∧ ∃ t, trace (Cli.script env args fuel s).2 = trace s ++ t
       ∧ Forall (λ ev, is_provider ev = false) t.
Proof.
  intros Hgroup Hcfg Hmiss.
  assert (Hmain : Cli.main env args fuel s
                  = (Raised (PyExit 1), after sc [EvPrint "No instance ids found."])).
  { apply main_no_ids; [done | done |]. by rewrite Hmiss. }
  assert (Hscript : Cli.script env args fuel s
                    = (Some 1, after sc [EvPrint "No instance ids found."])).
  { unfold Cli.script. by rewrite Hmain. }
  split; [unfold Config.get; by rewrite Hmiss |].
  split; [exact Hmain |]. split; [exact Hscript |].
  destruct (emits_config_init env (record (EvBasicConfig (Cli.log_level args)) s))
    as (tc & Etc & Ftc).
  rewrite Hcfg in Etc. simpl in Etc.
  exists (EvBasicConfig (Cli.log_level args) :: tc ++ [EvPrint "No instance ids found."]).
  rewrite Hscript. simpl. rewrite Etc, <- !app_assoc. split; [done |].
  constructor; [done |]. apply Forall_app. split; [| by repeat constructor].
  eapply Forall_impl; [exact Ftc |]. apply is_config_not_provider.
Qed.

Lemma missing_group_exits_before_connecting_witness :
  Cli.script Demo.env (Demo.args true false false Cli.CmdStart "nope") 5 initial
  = (Some 1,
     mkState
       [ EvBasicConfig 50; EvOpen "/etc/imgr.yaml"; EvOpen "/home/ops/.imgr.yaml";
         EvPrint "No instance ids found." ]
       (Demo.user_yaml ∪ Demo.site_yaml)).
Proof.
  destruct (missing_group_exits_before_connecting Demo.env
              (Demo.args true false false Cli.CmdStart "nope") 5 initial
              (mkState [EvBasicConfig 50; EvOpen "/etc/imgr.yaml";
                        EvOpen "/home/ops/.imgr.yaml"]
                       (Demo.user_yaml ∪ Demo.site_yaml))
              eq_refl)
    as (_ & _ & Hscript & _); [by vm_compute | by vm_compute |].
  rewrite Hscript. by vm_compute.
Defined.

(** A group whose list is empty ends the same way. *)
Example run_empty_group :
  InstancePool.__init__ Demo.env
    (default PyNone (({[ KStr "idle" := PyList [] ]} : gmap PyKey PyVal) !! KStr "idle"))
    false true initial
  = (Raised (PyExit 1), after initial [EvPrint "No instance ids found."]).
Proof. by vm_compute. Qed.

(** An interrupt during the blocking wait is caught by [main], which prints
    its line and returns 1. *)
Example run_interrupted :
  Cli.script Demo.interrupted (Demo.args true false false Cli.CmdStart "db") 9 initial
  = (Some 1,
     mkState
       [ EvBasicConfig 50; EvOpen "/etc/imgr.yaml"; EvOpen "/home/ops/.imgr.yaml";
         EvConnect "us-east-1"; EvGetOnlyInstances (PyList [PyStr "i-7"]);
         EvPrint "Instance web-1 is already running, skip it.";
         EvPrint "Starting web-2..."; EvStart Demo.web2;
         EvGetStatus "i-2"; EvSleep 1; EvGetStatus "i-2"; EvSleep 1;
         EvPrint "Keyboard interrupted" ]
       (Demo.user_yaml ∪ Demo.site_yaml)).
Proof. by vm_compute. Qed.

(* ===================================================================== *)
(** ** Further properties: polling                                        *)
(* ===================================================================== *)

Lemma pop_snoc {A} (l : list A) (x : A) : InstancePool.pop (l ++ [x]) = ret x.
Proof. unfold InstancePool.pop. by rewrite reverse_snoc. Qed.

Lemma get_status_last (env : Env) (id : string) (l : list Z) (code : Z) (s : State) :
  get_all_instance_status env (trace s) id = inr (l ++ [code]) ->
  InstancePool._get_status env id s = (Returned code, record (EvGetStatus id) s).
Proof.
  intros Hans. unfold InstancePool._get_status, bind, call.
  rewrite Hans. by rewrite pop_snoc.
Qed.

(** X1.  [_get_status] asks the provider once and returns the state code of
    the last status it is given; an answer without any status ends in the
    IndexError of [pop], and an exception of the provider comes out as it
    is.  The call is on the trace in all three cases. *)
Theorem get_status_takes_last_status (env : Env) (id : string) (s : State) :
  (∀ l code, get_all_instance_status env (trace s) id = inr (l ++ [code]) ->
     InstancePool._get_status env id s = (Returned code, record (EvGetStatus id) s))
  ∧ (get_all_instance_status env (trace s) id = inr [] ->
     InstancePool._get_status env id s
     = (Raised (PyExn IndexError "pop from empty list"), record (EvGetStatus id) s))
  ∧ (∀ e, get_all_instance_status env (trace s) id = inl e ->
     InstancePool._get_status env id s = (Raised e, record (EvGetStatus id) s)).
Proof.
  split; [| split].
  - intros l code. apply get_status_last.
  - intros Hans. unfold InstancePool._get_status, bind, call. by rewrite Hans.
  - intros e Hans. unfold InstancePool._get_status, bind, call. by rewrite Hans.
Qed.

Section Waiting.
Variable env : Env.
Variable pool : InstancePool.t.
Hypothesis blocking : InstancePool._blocking pool = true.

Lemma wait_for_unfold (fuel : nat) (i : Inst.t) (target : Z) (s : State) :
  InstancePool.wait_for env pool fuel i target s
  = match InstancePool._get_status env (Inst.id i) s with
    | (Returned code, s1) =>
        if negb (code =? target) then
          match fuel with
          | O => (OutOfFuel, s1)
          | S n =>
              match call (EvSleep 1) (λ h, time_sleep env h 1) s1 with
              | (Returned _, s2) => InstancePool.wait_for env pool n i target s2
              | (Raised e, s2) => (Raised e, s2)
              | (OutOfFuel, s2) => (OutOfFuel, s2)
              end
          end
        else (Returned tt, s1)
    | (Raised e, s1) => (Raised e, s1)
    | (OutOfFuel, s1) => (OutOfFuel, s1)
    end.
Proof.
  unfold InstancePool.wait_for. rewrite blocking.
  destruct fuel as [| n]; simpl; unfold bind;
    destruct (InstancePool._get_status env (Inst.id i) s) as [[code | e |] s1];
    simpl; try done; by destruct (negb (code =? target)).
Qed.

Lemma wait_for_converges (n : nat) :
  ∀ (fuel : nat) (i : Inst.t) (target : Z) (s : State),
    converges env (Inst.id i) target (trace s) n ->
    (n ≤ fuel)%nat ->
    InstancePool.wait_for env pool fuel i target s
    = (Returned tt, after s (polling (Inst.id i) n)).
Proof.
  induction n as [| n IH]; intros fuel i target s Hconv Hfuel; simpl in Hconv.
  - destruct Hconv as (l & Hans). rewrite wait_for_unfold.
    rewrite (get_status_last env _ l target s Hans). by rewrite Z.eqb_refl.
  - destruct Hconv as ((l & code & Hans & Hne) & Hsleep & Hrest).
    rewrite wait_for_unfold. rewrite (get_status_last env _ l code s Hans).
    apply Z.eqb_neq in Hne. rewrite Hne. simpl.
    destruct fuel as [| fuel]; [lia |].
    unfold call. simpl. rewrite Hsleep.
    rewrite (IH fuel i target); [| | lia].
    + unfold after, record. simpl. by rewrite <- !app_assoc.
    + simpl. by rewrite <- app_assoc.
Qed.

Lemma wait_for_never_returns (i : Inst.t) (target : Z) :
  (∀ h, ∃ l code, get_all_instance_status env h (Inst.id i) = inr (l ++ [code])
                  ∧ code ≠ target) ->
  (∀ h, time_sleep env h 1 = inr ()) ->
  ∀ fuel s, (InstancePool.wait_for env pool fuel i target s).1 = OutOfFuel.
Proof.
  intros Hnever Hsleep fuel. induction fuel as [| fuel IH]; intros s;
    rewrite wait_for_unfold;
    destruct (Hnever (trace s)) as (l & code & Hans & Hne);
    rewrite (get_status_last env _ l code s Hans);
    apply Z.eqb_neq in Hne; rewrite Hne; simpl; [done |].
  unfold call. rewrite Hsleep. apply IH.
Qed.

End Waiting.

(** X2.  The blocking wait ends as soon as a poll answers the target: when
    the provider answers the target at poll number [n] + 1 and not before,
    the wait returns after exactly [n] polls each followed by a sleep of one
    second and the poll that succeeds, whatever fuel of at least [n] it is
    given. *)
Theorem blocking_wait_returns_once_target_is_polled (env : Env) (pool : InstancePool.t)
    (fuel n : nat) (i : Inst.t) (target : Z) (s : State) :
  InstancePool._blocking pool = true ->
  converges env (Inst.id i) target (trace s) n ->
  (n ≤ fuel)%nat ->
  InstancePool.wait_for env pool fuel i target s
  = (Returned tt, after s (polling (Inst.id i) n)).
Proof. intros Hb. by apply wait_for_converges. Qed.

Lemma blocking_wait_returns_once_target_is_polled_witness :
  InstancePool.wait_for Demo.env (Demo.pool false true) 7 Demo.web2 RUNNING initial
  = (Returned tt,
     after initial
       [ EvGetStatus "i-2"; EvSleep 1; EvGetStatus "i-2"; EvSleep 1; EvGetStatus "i-2" ]).
Proof.
  apply (blocking_wait_returns_once_target_is_polled Demo.env (Demo.pool false true)
           7 2 Demo.web2 RUNNING initial eq_refl); [| lia].
  simpl. repeat split; try (by exists [], PENDING); by exists [].
Defined.

(** X3.  The blocking wait has no bound of its own: when no poll ever
    answers the target and the sleeps return, the wait is still polling
    after any number of rounds. *)
Theorem blocking_wait_has_no_timeout (env : Env) (pool : InstancePool.t) (i : Inst.t)
    (target : Z) (fuel : nat) (s : State) :
  InstancePool._blocking pool = true ->
  (∀ h, ∃ l code, get_all_instance_status env h (Inst.id i) = inr (l ++ [code])
                  ∧ code ≠ target) ->
  (∀ h, time_sleep env h 1 = inr ()) ->
  (InstancePool.wait_for env pool fuel i target s).1 = OutOfFuel.
Proof. intros Hb Hnever Hsleep. by apply wait_for_never_returns. Qed.

Lemma blocking_wait_has_no_timeout_witness :
  (InstancePool.wait_for Demo.stuck (Demo.pool false true) 1000 Demo.web2 RUNNING
     initial).1 = OutOfFuel.
Proof.
  apply (blocking_wait_has_no_timeout Demo.stuck (Demo.pool false true) Demo.web2
           RUNNING 1000 initial eq_refl).
  - intros h. by exists [], PENDING.
  - done.
Defined.

(* ===================================================================== *)
(** ** Further properties: the end of the run                             *)
(* ===================================================================== *)

(** Once the pool is constructed, [main] is the try block of lines 168-172. *)
Lemma main_run (env : Env) (args : Cli.Args) (fuel : nat) (s : State)
    (pool : InstancePool.t) (sp : State) :
  reaches_command env args s pool sp ->
  Cli.main env args fuel s
  = try_except
      (Cli.dispatch env pool (Cli.command args) fuel ;; ret None)
      "KeyboardInterrupt"
      (λ _, print "Keyboard interrupted" ;; ret (Some 1)) sp.
Proof.
  intros (sc & ids & Hcfg & Hids & Hinit). unfold Cli.main.
  unfold bind at 1. unfold emit.
  unfold bind at 1. rewrite Hcfg.
  unfold bind at 1. rewrite Hids.
  unfold bind at 1. by rewrite Hinit.
Qed.

(** An exception of the construction leaves [main] as it is, whatever it is. *)
Lemma main_init_raises (env : Env) (args : Cli.Args) (fuel : nat) (s sc s' : State)
    (ids : PyVal) (e : Exn) :
  Config.__init__ env (record (EvBasicConfig (Cli.log_level args)) s) = (Returned tt, sc) ->
  (if Cli.group args
   then Config.get (Cli.instances args)
   else Cli.split (Cli.instances args) (Cli.delimiter args)) sc = (Returned ids, sc) ->
  InstancePool.__init__ env ids (Cli.dry_run args)
    (if Cli.non_blocking args then false else true) sc = (Raised e, s') ->
  Cli.main env args fuel s = (Raised e, s').
Proof.
  intros Hcfg Hids Hinit. unfold Cli.main.
  unfold bind at 1. unfold emit.
  unfold bind at 1. rewrite Hcfg.
  unfold bind at 1. rewrite Hids.
  unfold bind at 1. by rewrite Hinit.
Qed.

(** X4.  A keyboard interrupt that ends the command is caught by [main]:
    the line "Keyboard interrupted" is printed after what the command did,
    [main] returns 1, and the process exits with status 1 without a
    traceback. *)
Theorem interrupt_during_command_exits_1 (env : Env) (args : Cli.Args) (fuel : nat)
    (s : State) (pool : InstancePool.t) (sp s' : State) (e : Exn) :
  reaches_command env args s pool sp ->
  Cli.dispatch env pool (Cli.command args) fuel sp = (Raised e, s') ->
  isinstance e KeyboardInterrupt = true ->
  Cli.main env args fuel s = (Returned (Some 1), after s' [EvPrint "Keyboard interrupted"])
  ∧ Cli.script env args fuel s = (Some 1, after s' [EvPrint "Keyboard interrupted"]).
Proof.
  intros Hreach Hrun He.
  assert (Hmain : Cli.main env args fuel s
                  = (Returned (Some 1), after s' [EvPrint "Keyboard interrupted"])).
  { rewrite (main_run env args fuel s pool sp Hreach).
    erewrite try_except_caught;
      [done | unfold bind; by rewrite Hrun | apply resolve_KeyboardInterrupt | done]. }
  split; [exact Hmain |]. unfold Cli.script. by rewrite Hmain.
Qed.

Lemma interrupt_during_command_exits_1_witness :
  Cli.script Demo.interrupted (Demo.args false false false Cli.CmdStart "i-1,i-2") 9 initial
  = (Some 1,
     mkState
       [ EvBasicConfig 50; EvOpen "/etc/imgr.yaml"; EvOpen "/home/ops/.imgr.yaml";
         EvConnect "us-east-1"; EvGetOnlyInstances (PyList [PyStr "i-1"; PyStr "i-2"]);
         EvPrint "Instance web-1 is already running, skip it.";
         EvPrint "Starting web-2..."; EvStart Demo.web2;
         EvGetStatus "i-2"; EvSleep 1; EvGetStatus "i-2"; EvSleep 1;
         EvPrint "Keyboard interrupted" ]
       (Demo.user_yaml ∪ Demo.site_yaml)).
Proof.
  pose (sp := mkState
                [ EvBasicConfig 50; EvOpen "/etc/imgr.yaml"; EvOpen "/home/ops/.imgr.yaml";
                  EvConnect "us-east-1";
                  EvGetOnlyInstances (PyList [PyStr "i-1"; PyStr "i-2"]) ]
                (Demo.user_yaml ∪ Demo.site_yaml)).
  pose (s' := mkState
                (trace sp
                 ++ [ EvPrint "Instance web-1 is already running, skip it.";
                      EvPrint "Starting web-2..."; EvStart Demo.web2;
                      EvGetStatus "i-2"; EvSleep 1; EvGetStatus "i-2"; EvSleep 1 ])
                (Demo.user_yaml ∪ Demo.site_yaml)).
  refine (eq_trans
            (proj2 (interrupt_during_command_exits_1 Demo.interrupted
                      (Demo.args false false false Cli.CmdStart "i-1,i-2") 9 initial
                      (Demo.pool false true) sp s' (PyExn KeyboardInterrupt "")
                      _ _ eq_refl)) _).
  - exists (mkState [EvBasicConfig 50; EvOpen "/etc/imgr.yaml";
                     EvOpen "/home/ops/.imgr.yaml"]
                    (Demo.user_yaml ∪ Demo.site_yaml)),
           (PyList [PyStr "i-1"; PyStr "i-2"]).
    repeat split; by vm_compute.
  - by vm_compute.
  - by vm_compute.
Defined.

(** X5.  Any other exception that ends the command is not caught: an error
    of the provider during a request or a poll, a KeyError, an IndexError
    leave [main] as they are, "Keyboard interrupted" is not printed, and the
    process ends with a traceback and status 1. *)
Theorem error_during_command_is_not_caught (env : Env) (args : Cli.Args) (fuel : nat)
    (s : State) (pool : InstancePool.t) (sp s' : State) (c : ExnClass) (msg : string) :
  reaches_command env args s pool sp ->
  Cli.dispatch env pool (Cli.command args) fuel sp = (Raised (PyExn c msg), s') ->
  issubclass c KeyboardInterrupt = false ->
  c ≠ SystemExit ->
  Cli.main env args fuel s = (Raised (PyExn c msg), s')
  ∧ Cli.script env args fuel s = (Some 1, after s' [EvTraceback (PyExn c msg)]).
Proof.
  intros Hreach Hrun Hc Hexit.
  assert (Hmain : Cli.main env args fuel s = (Raised (PyExn c msg), s')).
  { rewrite (main_run env args fuel s pool sp Hreach).
    erewrite try_except_passed;
      [done | unfold bind; by rewrite Hrun | apply resolve_KeyboardInterrupt | done]. }
  split; [exact Hmain |]. unfold Cli.script. rewrite Hmain.
  by rewrite bool_decide_eq_false_2.
Qed.

Lemma error_during_command_is_not_caught_witness :
  Cli.script Demo.refusing (Demo.args false false false Cli.CmdStart "i-1,i-2") 9 initial
  = (Some 1,
     mkState
       [ EvBasicConfig 50; EvOpen "/etc/imgr.yaml"; EvOpen "/home/ops/.imgr.yaml";
         EvConnect "us-east-1"; EvGetOnlyInstances (PyList [PyStr "i-1"; PyStr "i-2"]);
         EvPrint "Instance web-1 is already running, skip it.";
         EvPrint "Starting web-2..."; EvStart Demo.web2;
         EvTraceback (PyExn EC2ResponseError "IncorrectInstanceState") ]
       (Demo.user_yaml ∪ Demo.site_yaml)).
Proof.
  pose (sp := mkState
                [ EvBasicConfig 50; EvOpen "/etc/imgr.yaml"; EvOpen "/home/ops/.imgr.yaml";
                  EvConnect "us-east-1";
                  EvGetOnlyInstances (PyList [PyStr "i-1"; PyStr "i-2"]) ]
                (Demo.user_yaml ∪ Demo.site_yaml)).
  pose (s' := mkState
                (trace sp
                 ++ [ EvPrint "Instance web-1 is already running, skip it.";
                      EvPrint "Starting web-2..."; EvStart Demo.web2 ])
                (Demo.user_yaml ∪ Demo.site_yaml)).
  refine (eq_trans
            (proj2 (error_during_command_is_not_caught Demo.refusing
                      (Demo.args false false false Cli.CmdStart "i-1,i-2") 9 initial
                      (Demo.pool false true) sp s' EC2ResponseError
                      "IncorrectInstanceState" _ _ eq_refl _)) _).
  - exists (mkState [EvBasicConfig 50; EvOpen "/etc/imgr.yaml";
                     EvOpen "/home/ops/.imgr.yaml"]
                    (Demo.user_yaml ∪ Demo.site_yaml)),
           (PyList [PyStr "i-1"; PyStr "i-2"]).
    repeat split; by vm_compute.
  - by vm_compute.
  - done.
  - by vm_compute.
Defined.

(** X6.  When the command returns, [main] returns None and the process
    exits with status 0, having done nothing after the command. *)
Theorem command_returning_exits_0 (env : Env) (args : Cli.Args) (fuel : nat)
    (s : State) (pool : InstancePool.t) (sp s' : State) :
  reaches_command env args s pool sp ->
  Cli.dispatch env pool (Cli.command args) fuel sp = (Returned tt, s') ->
  Cli.main env args fuel s = (Returned None, s')
  ∧ Cli.script env args fuel s = (Some 0, s').
Proof.
  intros Hreach Hrun.
  assert (Hmain : Cli.main env args fuel s = (Returned None, s')).
  { rewrite (main_run env args fuel s pool sp Hreach).
    apply try_except_returned. unfold bind. by rewrite Hrun. }
  split; [exact Hmain |]. unfold Cli.script. by rewrite Hmain.
Qed.

Lemma command_returning_exits_0_witness :
  Cli.script Demo.env (Demo.args false true false Cli.CmdReboot "i-1,i-2") 0 initial
  = (Some 0,
     mkState
       [ EvBasicConfig 50; EvOpen "/etc/imgr.yaml"; EvOpen "/home/ops/.imgr.yaml";
         EvConnect "us-east-1"; EvGetOnlyInstances (PyList [PyStr "i-1"; PyStr "i-2"]);
         EvPrint "Rebooting web-1...";
         EvPrint "Instance web-2 is not running, skip it." ]
       (Demo.user_yaml ∪ Demo.site_yaml)).
Proof.
  pose (sp := mkState
                [ EvBasicConfig 50; EvOpen "/etc/imgr.yaml"; EvOpen "/home/ops/.imgr.yaml";
                  EvConnect "us-east-1";
                  EvGetOnlyInstances (PyList [PyStr "i-1"; PyStr "i-2"]) ]
                (Demo.user_yaml ∪ Demo.site_yaml)).
  refine (eq_trans
            (proj2 (command_returning_exits_0 Demo.env
                      (Demo.args false true false Cli.CmdReboot "i-1,i-2") 0 initial
                      (Demo.pool true true) sp
                      (after sp [ EvPrint "Rebooting web-1...";
                                  EvPrint "Instance web-2 is not running, skip it." ])
                      _ _)) _).
  - exists (mkState [EvBasicConfig 50; EvOpen "/etc/imgr.yaml";
                     EvOpen "/home/ops/.imgr.yaml"]
                    (Demo.user_yaml ∪ Demo.site_yaml)),
           (PyList [PyStr "i-1"; PyStr "i-2"]).
    repeat split; by vm_compute.
  - by vm_compute.
  - by vm_compute.
Defined.

(* ===================================================================== *)
(** ** Further properties: the construction of the pool                   *)
(* ===================================================================== *)

(** X7.  Whatever exception the connection raises (a missing credential, a
    network error, a keyboard interrupt), the construction ends with the
    NameError of the except clause of line 39: the clause names a class the
    module does not bind, its handler never runs, nothing is printed and the
    ids are not resolved. *)
Theorem any_connection_failure_ends_in_NameError (env : Env) (ids : PyVal)
    (dry_run blocking : bool) (s : State) (e : Exn) :
  truthy ids = true ->
  connect_to_region env (trace s) "us-east-1" = inl e ->
  InstancePool.__init__ env ids dry_run blocking s
  = (Raised (PyExn NameError "global name 'NoAuthHandlerFound' is not defined"),
     after s [EvConnect "us-east-1"]).
Proof. apply init_connect_raises. Qed.

Lemma any_connection_failure_ends_in_NameError_witness :
  InstancePool.__init__ Demo.no_auth (PyStr "i-1") true false initial
  = (Raised (PyExn NameError "global name 'NoAuthHandlerFound' is not defined"),
     after initial [EvConnect "us-east-1"]).
Proof.
  exact (any_connection_failure_ends_in_NameError Demo.no_auth (PyStr "i-1") true false
           initial (PyExn NoAuthHandlerFound "No handler was ready to authenticate.")
           eq_refl eq_refl).
Defined.

(** X8.  Only an EC2ResponseError of the resolution is turned into the
    error line and the exit: any other exception raised while the ids are
    resolved leaves the construction as it is, with nothing printed, and
    [main], whose try block begins after the construction, does not catch
    it either, not even a keyboard interrupt. *)
Theorem other_resolution_errors_are_not_caught (env : Env) (ids : PyVal)
    (dry_run blocking : bool) (s : State) (e : Exn) :
  truthy ids = true ->
  connect_to_region env (trace s) "us-east-1" = inr () ->
  get_only_instances env (trace s ++ [EvConnect "us-east-1"]) ids = inl e ->
  isinstance e EC2ResponseError = false ->
  InstancePool.__init__ env ids dry_run blocking s
  = (Raised e, after s [EvConnect "us-east-1"; EvGetOnlyInstances ids])
  ∧ ∀ args fuel s0,
      Config.__init__ env (record (EvBasicConfig (Cli.log_level args)) s0)
        = (Returned tt, s) ->
      (if Cli.group args
       then Config.get (Cli.instances args)
       else Cli.split (Cli.instances args) (Cli.delimiter args)) s = (Returned ids, s) ->
      Cli.dry_run args = dry_run ->
      (if Cli.non_blocking args then false else true) = blocking ->
      Cli.main env args fuel s0
      = (Raised e, after s [EvConnect "us-east-1"; EvGetOnlyInstances ids]).
Proof.
  intros Hids Hconn Hget He.
  assert (Hinit : InstancePool.__init__ env ids dry_run blocking s
                  = (Raised e, after s [EvConnect "us-east-1"; EvGetOnlyInstances ids])).
  { unfold InstancePool.__init__, bind at 1. rewrite Hids. simpl.
    unfold bind at 1.
    erewrite try_except_returned; [| unfold call; by rewrite Hconn].
    unfold bind at 1.
    erewrite try_except_passed;
      [ | unfold call; simpl; by rewrite Hget | apply resolve_EC2ResponseError | done ].
    unfold after, record. simpl. by rewrite <- app_assoc. }
  split; [exact Hinit |].
  intros args fuel s0 Hcfg Hsplit <- <-.
  by apply (main_init_raises env args fuel s0 s _ ids e).
Qed.

Lemma other_resolution_errors_are_not_caught_witness :
  Cli.script Demo.cut_off (Demo.args false false false Cli.CmdStop "i-1") 3 initial
  = (Some 1,
     mkState
       [ EvBasicConfig 50; EvOpen "/etc/imgr.yaml"; EvOpen "/home/ops/.imgr.yaml";
         EvConnect "us-east-1"; EvGetOnlyInstances (PyList [PyStr "i-1"]);
         EvTraceback (PyExn IOError "[Errno 104] Connection reset by peer") ]
       (Demo.user_yaml ∪ Demo.site_yaml)).
Proof.
  pose (sc := mkState [EvBasicConfig 50; EvOpen "/etc/imgr.yaml";
                       EvOpen "/home/ops/.imgr.yaml"]
                      (Demo.user_yaml ∪ Demo.site_yaml)).
  pose proof (proj2 (other_resolution_errors_are_not_caught Demo.cut_off
                       (PyList [PyStr "i-1"]) false true sc
                       (PyExn IOError "[Errno 104] Connection reset by peer")
                       eq_refl eq_refl eq_refl eq_refl)
                (Demo.args false false false Cli.CmdStop "i-1") 3%nat initial) as Hmain.
  unfold Cli.script. rewrite Hmain; by vm_compute.
Defined.

(* ===================================================================== *)
(** ** Further properties: the loop over the instances                    *)
(* ===================================================================== *)

(** X9.  A command handles the instances one after the other, in the order
    of the list: running it on a list is running it on the beginning of the
    list and then, if that returned, on the rest, from the state the
    beginning left. *)
Theorem command_runs_instances_in_order (env : Env) (dry_run blocking : bool)
    (l1 l2 : list Inst.t) (cmd : Cli.Command) (fuel : nat) (s : State) :
  Cli.dispatch env (InstancePool.mk dry_run blocking (l1 ++ l2)) cmd fuel s
  = (Cli.dispatch env (InstancePool.mk dry_run blocking l1) cmd fuel ;;
     Cli.dispatch env (InstancePool.mk dry_run blocking l2) cmd fuel) s.
Proof. apply dispatch_app. Qed.

(** X10.  A request the provider refuses ends the command there: the
    exception comes out of the command right after the request, no retry is
    made, and the instances further down the list get no notice, no request
    and no poll.  The instance is one that can be given its line (it has a
    Name tag, and the name is ASCII), so that the turn gets as far as the
    request. *)
Theorem refused_request_ends_the_command (env : Env) (blocking : bool)
    (l1 l2 : list Inst.t) (i : Inst.t) (name : string) (cmd : Cli.Command) (fuel : nat)
    (ev : Event) (e : Exn) (s s1 : State) :
  Cli.dispatch env (InstancePool.mk false blocking l1) cmd fuel s = (Returned tt, s1) ->
  printable cmd i name ->
  transition cmd i = Some ev ->
  request env cmd (trace s1 ++ [EvPrint (notice cmd i name)]) i = inl e ->
  Cli.dispatch env (InstancePool.mk false blocking (l1 ++ i :: l2)) cmd fuel s
  = (Raised e, after s1 [EvPrint (notice cmd i name); ev]).
Proof.
  intros Hfirst Hname Hev Hreq.
  rewrite dispatch_app. unfold bind. rewrite Hfirst.
  rewrite dispatch_for_each. simpl. unfold bind.
  by rewrite (body_transition_raises env (InstancePool.mk false blocking (i :: l2))
                cmd fuel i name ev e s1 Hname eq_refl Hev Hreq).
Qed.

Lemma refused_request_ends_the_command_witness :
  Cli.dispatch Demo.refusing
    (InstancePool.mk false true ([Demo.web1] ++ Demo.web2 :: [Demo.anon; Demo.web2]))
    Cli.CmdStart 5 initial
  = (Raised (PyExn EC2ResponseError "IncorrectInstanceState"),
     after (after initial [EvPrint "Instance web-1 is already running, skip it."])
       [EvPrint "Starting web-2..."; EvStart Demo.web2]).
Proof.
  exact (refused_request_ends_the_command Demo.refusing true [Demo.web1]
           [Demo.anon; Demo.web2] Demo.web2 "web-2" Cli.CmdStart 5 (EvStart Demo.web2)
           (PyExn EC2ResponseError "IncorrectInstanceState") initial
           (after initial [EvPrint "Instance web-1 is already running, skip it."])
           eq_refl (web2_printable Cli.CmdStart) eq_refl eq_refl).
Defined.

Lemma body_concerns (env : Env) (pool : InstancePool.t) (cmd : Cli.Command) (fuel : nat)
    (i : Inst.t) :
  In i (InstancePool._instances pool) ->
  emits (concerns (InstancePool._instances pool)) (body env pool cmd fuel i).
Proof.
  intros Hi.
  destruct cmd; unfold_body; emits_auto; try done;
    try (apply emits_wait_for; simpl; eauto); simpl; eauto.
Qed.

(** X11.  A command sends requests to the instances of its pool only, and
    polls the status of their ids only: every start, stop or reboot event is
    for an instance resolved at construction, every status poll is for the
    id of one. *)
Theorem command_concerns_pool_instances_only (env : Env) (pool : InstancePool.t)
    (cmd : Cli.Command) (fuel : nat) (s : State) :
  ∃ t, trace (Cli.dispatch env pool cmd fuel s).2 = trace s ++ t
    ∧ (∀ i, In (EvStart i) t ∨ In (EvStop i) t ∨ In (EvReboot i) t ->
         In i (InstancePool._instances pool))
    ∧ (∀ id, In (EvGetStatus id) t ->
         ∃ i, In i (InstancePool._instances pool) ∧ Inst.id i = id).
Proof.
  assert (Hall : emits (concerns (InstancePool._instances pool))
                   (Cli.dispatch env pool cmd fuel)).
  { rewrite dispatch_for_each. apply emits_for_each. intros i Hi. by apply body_concerns. }
  destruct (Hall s) as (t & E & F). rewrite List.Forall_forall in F.
  exists t. split; [exact E |]. split.
  - intros i [Hin | [Hin | Hin]]; exact (F _ Hin).
  - intros id Hin. exact (F _ Hin).
Qed.

(* ===================================================================== *)
(** ** Further properties: the ids on the command line                    *)
(* ===================================================================== *)

Lemma append_cons (c : ascii) (a b : string) : String c a +:+ b = String c (a +:+ b).
Proof. done. Qed.

Lemma append_assoc (a b c : string) : (a +:+ b) +:+ c = a +:+ (b +:+ c).
Proof.
  induction a as [| x a IH]; [done |]. by rewrite !append_cons, IH.
Qed.

Lemma length_append (a b : string) :
  String.length (a +:+ b) = (String.length a + String.length b)%nat.
Proof.
  induction a as [| x a IH]; [done |]. rewrite append_cons. simpl. by rewrite IH.
Qed.

Lemma prefix_append (p s : string) : String.prefix p s = true -> ∃ r, s = p +:+ r.
Proof.
  revert s. induction p as [| a p IH]; intros s Hp; [by exists s |].
  destruct s as [| b s]; [done |]. simpl in Hp.
  destruct (ascii_dec a b) as [-> |]; [| done].
  destruct (IH s Hp) as (r & ->). by exists r.
Qed.

(** The characters of a separator just matched are dropped. *)
Lemma split_from_skip (sep q cur r : string) :
  split_from sep (String.length q) cur (q +:+ r) = split_from sep 0 cur r.
Proof. induction q as [| c q IH]; [done |]. rewrite append_cons. simpl. exact IH. Qed.

Lemma join_cons (sep x : string) (l : list string) :
  l ≠ [] -> join sep (x :: l) = x +:+ sep +:+ join sep l.
Proof. by destruct l. Qed.

Lemma split_from_join (sep : string) (n : nat) :
  sep ≠ "" ->
  ∀ s cur, (String.length s ≤ n)%nat ->
    split_from sep 0 cur s ≠ []
    ∧ join sep (split_from sep 0 cur s) = cur +:+ s.
Proof.
  intros Hsep. induction n as [| n IH]; intros s cur Hlen.
  - destruct s; [| simpl in Hlen; lia]. simpl. by rewrite append_empty_r.
  - destruct s as [| c s]; [simpl; by rewrite append_empty_r |].
    simpl in Hlen. cbn [split_from].
    destruct (String.prefix sep (String c s)) eqn:Hp.
    + destruct (prefix_append _ _ Hp) as (r & Hr).
      destruct sep as [| c0 sep']; [done |].
      rewrite append_cons in Hr. injection Hr as <- ->.
      replace (String.length (String c sep') - 1)%nat with (String.length sep')
        by (simpl; lia).
      rewrite split_from_skip.
      destruct (IH r "") as [Hne Hjoin].
      { rewrite length_append in Hlen. lia. }
      split; [done |].
      rewrite join_cons by done. rewrite Hjoin. by rewrite append_cons.
    + destruct (IH s (cur +:+ String c "")) as [Hne Hjoin]; [lia |].
      split; [done |]. rewrite Hjoin. by rewrite append_assoc.
Qed.

Lemma split_pieces (s sep : string) (st : State) :
  sep ≠ "" ->
  ∃ pieces,
    Cli.split s sep st = (Returned (PyList (PyStr <$> pieces)), st)
    ∧ pieces ≠ []
    ∧ join sep pieces = s.
Proof.
  intros Hsep. exists (split_from sep 0 "" s).
  destruct (split_from_join sep (String.length s) Hsep s "") as [Hne Hjoin]; [done |].
  split; [| done].
  unfold Cli.split. by rewrite bool_decide_eq_false_2.
Qed.

(** X12.  Splitting the ids argument on a delimiter that is not empty loses
    nothing: the pieces joined with the delimiter are the argument again,
    and there is always at least one piece (an empty argument gives one
    empty id). *)
Theorem split_then_join_is_identity (s sep : string) (st : State) :
  sep ≠ "" ->
  ∃ pieces,
    Cli.split s sep st = (Returned (PyList (PyStr <$> pieces)), st)
    ∧ pieces ≠ []
    ∧ join sep pieces = s.
Proof. apply split_pieces. Qed.

Lemma split_then_join_is_identity_witness :
  ∃ pieces,
    Cli.split "i-1,,i-2," "," initial = (Returned (PyList (PyStr <$> pieces)), initial)
    ∧ pieces ≠ []
    ∧ join "," pieces = "i-1,,i-2,".
Proof. by apply (split_then_join_is_identity "i-1,,i-2," "," initial). Defined.

Lemma init_connects (env : Env) (ids : PyVal) (dry_run blocking : bool) (s : State) :
  truthy ids = true ->
  ∃ t, trace (InstancePool.__init__ env ids dry_run blocking s).2
       = trace s ++ EvConnect "us-east-1" :: t.
Proof.
  intros Hids. unfold InstancePool.__init__, bind at 1. rewrite Hids. simpl.
  match goal with
  | |- ∃ t, trace (bind ?m ?k s).2 = _ =>
      destruct (bind_extends m k s) as (t & E)
  end.
  { intros []. emits_auto; done. }
  exists t. rewrite E.
  replace (trace s ++ EvConnect "us-east-1" :: t)
    with ((trace s ++ [EvConnect "us-east-1"]) ++ t) by by rewrite <- app_assoc.
  f_equal. unfold try_except, call.
  destruct (connect_to_region env (trace s) "us-east-1"); [| done].
  by rewrite resolve_NoAuthHandlerFound.
Qed.

(** X13.  Without the group flag the constructor is never given an empty
    list: whatever the ids argument, even an empty one, the run goes on to
    connect to us-east-1 right after the configuration is loaded, and the
    no-instance-ids exit is not taken. *)
Theorem explicit_ids_always_reach_the_provider (env : Env) (args : Cli.Args)
    (fuel : nat) (s sc : State) :
  Cli.group args = false ->
  Cli.delimiter args ≠ "" ->
  Config.__init__ env (record (EvBasicConfig (Cli.log_level args)) s) = (Returned tt, sc) ->
  ∃ t, trace (Cli.main env args fuel s).2 = trace sc ++ EvConnect "us-east-1" :: t.
Proof.
  intros Hgroup Hdelim Hcfg.
  destruct (split_pieces (Cli.instances args) (Cli.delimiter args) sc Hdelim)
    as (pieces & Hsplit & Hne & _).
  unfold Cli.main.
  unfold bind at 1. unfold emit.
  unfold bind at 1. rewrite Hcfg.
  unfold bind at 1. rewrite Hgroup, Hsplit.
  match goal with
  | |- ∃ t, trace (bind ?m ?k sc).2 = _ =>
      destruct (bind_extends m k sc) as (t1 & E1)
  end.
  { intros pool. apply emits_try_except.
    - apply emits_bind; [| intros _; apply emits_ret].
      eapply emits_weaken; [| apply dispatch_allowed]. done.
    - intros _. apply emits_bind; [by apply emits_print | intros _; apply emits_ret]. }
  destruct (init_connects env (PyList (PyStr <$> pieces)) (Cli.dry_run args)
              (if Cli.non_blocking args then false else true) sc) as (t2 & E2).
  { by destruct pieces. }
  exists (t2 ++ t1). rewrite E1, E2, <- app_assoc. done.
Qed.

Lemma explicit_ids_always_reach_the_provider_witness :
  ∃ t, trace (Cli.main Demo.env (Demo.args false false true Cli.CmdState "") 0 initial).2
       = [EvBasicConfig 50; EvOpen "/etc/imgr.yaml"; EvOpen "/home/ops/.imgr.yaml"]
         ++ EvConnect "us-east-1" :: t.
Proof.
  apply (explicit_ids_always_reach_the_provider Demo.env
           (Demo.args false false true Cli.CmdState "") 0 initial
           (mkState [EvBasicConfig 50; EvOpen "/etc/imgr.yaml";
                     EvOpen "/home/ops/.imgr.yaml"]
                    (Demo.user_yaml ∪ Demo.site_yaml)));
    by vm_compute.
Defined.

(** X14.  An empty delimiter makes [split] raise ValueError, which nothing
    catches: the process ends with a traceback and status 1 after the
    configuration is loaded, before any call to the provider. *)
Theorem empty_delimiter_ends_in_ValueError (env : Env) (args : Cli.Args) (fuel : nat)
    (s sc : State) :
  Cli.group args = false ->
  Cli.delimiter args = "" ->
  Config.__init__ env (record (EvBasicConfig (Cli.log_level args)) s) = (Returned tt, sc) ->
  Cli.script env args fuel s
  = (Some 1, after sc [EvTraceback (PyExn ValueError "empty separator")]).
Proof.
  intros Hgroup Hdelim Hcfg. unfold Cli.script, Cli.main.
  unfold bind at 1. unfold emit.
  unfold bind at 1. rewrite Hcfg.
  unfold bind at 1. rewrite Hgroup, Hdelim. done.
Qed.

Lemma empty_delimiter_ends_in_ValueError_witness :
  Cli.script Demo.env (Cli.mkArgs false false false false false "" Cli.CmdStart "i-1")
    0 initial
  = (Some 1,
     after
       (mkState [EvBasicConfig 50; EvOpen "/etc/imgr.yaml"; EvOpen "/home/ops/.imgr.yaml"]
                (Demo.user_yaml ∪ Demo.site_yaml))
       [EvTraceback (PyExn ValueError "empty separator")]).
Proof.
  apply (empty_delimiter_ends_in_ValueError Demo.env
           (Cli.mkArgs false false false false false "" Cli.CmdStart "i-1") 0 initial
           (mkState [EvBasicConfig 50; EvOpen "/etc/imgr.yaml";
                     EvOpen "/home/ops/.imgr.yaml"]
                    (Demo.user_yaml ∪ Demo.site_yaml)));
    by vm_compute.
Defined.

(* ===================================================================== *)
(** ** Further properties: the configuration                              *)
(* ===================================================================== *)


(** An element that is a mapping with two keys is read as the pair of its
    keys. *)
Example update_with_a_mapping_as_pair :
  Config.update Demo.env
    (PyList [PyDict {[ KInt 2 := PyStr "b"; KInt 1 := PyStr "a" ]}]) initial
  = (Returned tt, mkState [] {[ KInt 1 := PyInt 2 ]}).
Proof. by vm_compute. Qed.

Example update_with_pairs_then_garbage :
  Config.update Demo.env
    (PyList [ PyList [PyStr "web"; PyList [PyStr "i-9"]]; PyStr "db"; PyInt 3;
              PyList [PyStr "late"; PyNone] ])
    initial
  = (Raised (PyExn TypeError "cannot convert dictionary update sequence element #2 to a sequence"),
     mkState [] {[ KStr "web" := PyList [PyStr "i-9"]; KStr "d" := PyStr "b" ]}).
Proof. by vm_compute. Qed.

Lemma load_shape (env : Env) (type : Config.FileType) (s : State) :
  (∀ e, read_yaml env (trace s) (Config.config_file_path env type) = inl e ->
        isinstance e Exception = true) ->
  ∃ s' w,
    Config._load_config env type s = (Returned tt, s')
    ∧ trace s' = trace s ++ EvOpen (Config.config_file_path env type) :: w
    ∧ Forall (λ ev, is_warning ev = true) w
    ∧ (length w ≤ 1)%nat.
Proof.
  intros Hexn. rewrite (load_config env type _ s eq_refl Hexn).
  eexists _, (warning env _). split; [reflexivity |]. simpl. split; [done |].
  unfold warning. destruct (failure env _); simpl; split; by repeat constructor.
Qed.

(** X16.  Constructing the configuration always tries both files, the
    site-wide one first: as long as reading raises Exceptions only, it
    returns after opening /etc/imgr.yaml and then the user's file, each
    followed by at most one warning, and does nothing else; a site file that
    fails does not keep the user file from being read. *)
Theorem config_opens_site_then_user (env : Env) (s : State) :
  (∀ h e, read_yaml env h "/etc/imgr.yaml" = inl e -> isinstance e Exception = true) ->
  (∀ h e, read_yaml env h (home env +:+ "/.imgr.yaml") = inl e ->
          isinstance e Exception = true) ->
  ∃ w1 w2,
    (Config.__init__ env s).1 = Returned tt
    ∧ trace (Config.__init__ env s).2
      = trace s ++ EvOpen "/etc/imgr.yaml" :: w1
                ++ EvOpen (home env +:+ "/.imgr.yaml") :: w2
    ∧ Forall (λ ev, is_warning ev = true) (w1 ++ w2)
    ∧ (length w1 ≤ 1)%nat ∧ (length w2 ≤ 1)%nat.
Proof.
  intros Hsite Huser. rewrite config_init_unfold.
  destruct (load_shape env Config.site (mkState (trace s) ∅)) as (s1 & w1 & -> & E1 & F1 & L1).
  { intros e. apply Hsite. }
  destruct (load_shape env Config.user s1) as (s2 & w2 & -> & E2 & F2 & L2).
  { intros e. apply Huser. }
  exists w1, w2. simpl. rewrite E2, E1. simpl.
  split; [done |]. split; [by rewrite <- app_assoc |].
  split; [by apply Forall_app | done].
Qed.

Lemma config_opens_site_then_user_witness :
  ∃ w1 w2,
    trace (Config.__init__ Demo.no_user_file initial).2
    = trace initial ++ EvOpen "/etc/imgr.yaml" :: w1
                    ++ EvOpen (home Demo.no_user_file +:+ "/.imgr.yaml") :: w2
    ∧ (length w1 ≤ 1)%nat ∧ (length w2 ≤ 1)%nat.
Proof.
  destruct (config_opens_site_then_user Demo.no_user_file initial)
    as (w1 & w2 & _ & E & _ & L1 & L2).
  - intros h e. by vm_compute.
  - intros h e. vm_compute. by intros [= <-].
  - by exists w1, w2.
Defined.

(* ===================================================================== *)
(** ** Further properties: what the flags do, end to end                  *)
(* ===================================================================== *)

(** X17.  When a command has nothing to send (a dry run, or every instance
    is one it skips, as for [state]) and every instance can be given its
    line (it has a Name tag, and the name is ASCII; for [state] the state
    name as well), its whole effect is one printed line per instance, in
    the order of the list: the notice of that instance.  It returns and
    leaves the configuration alone.  When some instance cannot be given its
    line, the command ends with an exception at the first such instance,
    after the notices of the instances before it. *)
Theorem quiet_command_prints_one_notice_per_instance (env : Env) (pool : InstancePool.t)
    (cmd : Cli.Command) (fuel : nat) (s : State) :
  (∀ i, In i (InstancePool._instances pool) ->
        transition cmd i = None ∨ InstancePool._dry_run pool = true) ->
  ((∀ i, In i (InstancePool._instances pool) -> ∃ name, printable cmd i name) ->
   Cli.dispatch env pool cmd fuel s
   = (Returned tt,
      after s ((λ i, EvPrint (notice cmd i (name_of i))) <$> InstancePool._instances pool)))
  ∧ (∀ l1 i l2,
       InstancePool._instances pool = l1 ++ i :: l2 ->
       (∀ j, In j l1 -> ∃ name, printable cmd j name) ->
       (∀ name, ¬ printable cmd i name) ->
       ∃ e, Cli.dispatch env pool cmd fuel s
            = (Raised e, after s ((λ j, EvPrint (notice cmd j (name_of j))) <$> l1))).
Proof.
  intros Hquiet. split.
  - intros Hnamed. rewrite dispatch_for_each. by apply for_each_notices.
  - intros l1 i l2 Heq Hnamed Hnot.
    rewrite dispatch_for_each, Heq, for_each_app. unfold bind at 1.
    rewrite (for_each_notices env pool cmd fuel l1); [| | done].
    + simpl. unfold bind.
      destruct (body_not_printable env pool cmd i Hnot) as (e & ->).
      by exists e.
    + intros j Hj. apply Hquiet. rewrite Heq. apply in_or_app. by left.
Qed.

Lemma quiet_command_prints_one_notice_per_instance_witness :
  Cli.dispatch Demo.env (Demo.pool true true) Cli.CmdStart 0 initial
  = (Returned tt,
     after initial
       [ EvPrint "Instance web-1 is already running, skip it.";
         EvPrint "Starting web-2..." ]).
Proof.
  refine (eq_trans
            (proj1 (quiet_command_prints_one_notice_per_instance Demo.env
                      (Demo.pool true true) Cli.CmdStart 0 initial _) _) _).
  - intros i _. by right.
  - apply pool_printable.
  - by vm_compute.
Defined.

(** What a computation returns satisfies [Q]. *)
Lemma emits_bind_post {A B} (P : Event -> Prop) (Q : A -> Prop) (m : M A) (k : A -> M B) :
  emits P m ->
  (∀ s a s', m s = (Returned a, s') -> Q a) ->
  (∀ a, Q a -> emits P (k a)) ->
  emits P (bind m k).
Proof.
  intros Hm HQ Hk s. unfold bind.
  destruct (Hm s) as (t1 & E1 & F1).
  destruct (m s) as [[a | e |] s'] eqn:Hrun; simpl in *; [| by exists t1 ..].
  destruct (Hk a (HQ s a s' Hrun) s') as (t2 & E2 & F2).
  exists (t1 ++ t2). rewrite E2, E1, app_assoc. split; [done |].
  by apply Forall_app.
Qed.

Lemma total_bind_post {A B} (Q : A -> Prop) (m : M A) (k : A -> M B) :
  total m ->
  (∀ s a s', m s = (Returned a, s') -> Q a) ->
  (∀ a, Q a -> total (k a)) ->
  total (bind m k).
Proof.
  intros Hm HQ Hk s. unfold bind. specialize (Hm s).
  destruct (m s) as [[a | e |] s'] eqn:Hrun; simpl in *; [| done | done].
  by apply Hk, (HQ s a s').
Qed.

Lemma total_try_except {A} (body : M A) (cls : string) (handler : Exn -> M A) :
  total body -> (∀ e, total (handler e)) -> total (try_except body cls handler).
Proof.
  intros Hb Hh s. unfold try_except. specialize (Hb s).
  destruct (body s) as [[a | e |] s']; simpl in *; [done | | done].
  destruct (resolve cls) as [[| | | | c] |]; simpl; try done.
  destruct (isinstance e c); [apply Hh | done].
Qed.

(** The pool the constructor returns has the flags it was given. *)
Lemma init_returned_flags (env : Env) (ids : PyVal) (dry_run blocking : bool)
    (s s' : State) (pool : InstancePool.t) :
  InstancePool.__init__ env ids dry_run blocking s = (Returned pool, s') ->
  InstancePool._dry_run pool = dry_run ∧ InstancePool._blocking pool = blocking.
Proof.
  unfold InstancePool.__init__, bind, try_except, call, print, emit, sys_exit, raise, ret, fmt.
  intros Hrun. repeat case_match; simplify_eq; done.
Qed.

Lemma total_init (env : Env) (ids : PyVal) (dry_run blocking : bool) :
  total (InstancePool.__init__ env ids dry_run blocking).
Proof.
  unfold InstancePool.__init__.
  repeat first
    [ apply total_ret | apply total_raise | apply total_fmt | apply total_emit
    | apply total_call | apply total_bind; [| intros ?]
    | apply total_try_except; [| intros ?]
    | match goal with |- total (if ?b then _ else _) => destruct b end ].
Qed.

Lemma total_config_init (env : Env) : total (Config.__init__ env).
Proof.
  assert (Hload : ∀ type, total (Config._load_config env type)).
  { intros type. unfold Config._load_config. apply total_try_except.
    - apply total_bind; [apply total_call |]. intros v s.
      destruct (update_is_update_like env v s) as [_ [-> | (e & -> & _)]]; done.
    - intros e. apply total_bind; [apply total_fmt | intros ?; apply total_emit]. }
  unfold Config.__init__. apply total_bind; [done |]. intros _.
  apply total_bind; [apply Hload |]. intros _. apply Hload.
Qed.

(** X18.  End to end, the dry-run flag keeps every request back: with
    [--dry-run] the whole run, from the parsed arguments to the end of
    [main], sends no start, stop or reboot request, whatever the command,
    the other flags, the configuration and the provider. *)
Theorem dry_run_flag_sends_no_request (env : Env) (args : Cli.Args) (fuel : nat)
    (s : State) :
  Cli.dry_run args = true ->
  ∃ t, trace (Cli.script env args fuel s).2 = trace s ++ t
    ∧ Forall (λ ev, is_transition ev = false) t.
Proof.
  intros Hdry.
  assert (Hmain : emits (λ ev, is_transition ev = false) (Cli.main env args fuel)).
  { unfold Cli.main.
    apply emits_bind; [by apply emits_emit | intros _].
    apply emits_bind; [| intros _].
    { eapply emits_weaken; [| apply emits_config_init]. intros ev. by destruct ev. }
    apply emits_bind; [| intros ids].
    { destruct (Cli.group args); [apply emits_get | apply emits_split]. }
    apply (emits_bind_post _ (λ pool, InstancePool._dry_run pool = true)).
    - apply init_no_transition.
    - intros s0 pool s1 Hinit.
      destruct (init_returned_flags _ _ _ _ _ _ _ Hinit) as [-> _]. exact Hdry.
    - intros pool Hpool. apply emits_try_except.
      + apply emits_bind; [| intros _; apply emits_ret].
        intros s0.
        destruct (for_each_quiet env pool (Cli.command args) fuel
                    (InstancePool._instances pool) s0) as (t & E & F & _); [by right |].
        rewrite <- dispatch_for_each in E.
        exists t. split; [exact E |].
        eapply Forall_impl; [exact F |]. apply is_print_not_transition.
      + intros _. apply emits_bind; [by apply emits_print | intros _; apply emits_ret]. }
  destruct (Hmain s) as (t & E & F). unfold Cli.script.
  destruct (Cli.main env args fuel s) as [[[code |] | [c msg | code] |] s1];
    simpl in *; try (by exists t).
  destruct (bool_decide (c = SystemExit)); [by exists t |].
  exists (t ++ [EvTraceback (PyExn c msg)]). simpl. rewrite E, app_assoc.
  split; [done |]. apply Forall_app. split; [done | by repeat constructor].
Qed.

Lemma dry_run_flag_sends_no_request_witness :
  ∃ t, trace (Cli.script Demo.env (Demo.args true true false Cli.CmdStop "web") 3
                initial).2 = trace initial ++ t
    ∧ Forall (λ ev, is_transition ev = false) t.
Proof.
  exact (dry_run_flag_sends_no_request Demo.env
           (Demo.args true true false Cli.CmdStop "web") 3 initial eq_refl).
Defined.

(** X19.  End to end, the non-blocking flag keeps the run from waiting:
    with [--non-blocking] the whole run polls no status and never sleeps,
    and it comes to an end without any fuel, whatever the command, the other
    flags, the configuration and the provider. *)
Theorem non_blocking_flag_never_waits (env : Env) (args : Cli.Args) (fuel : nat)
    (s : State) :
  Cli.non_blocking args = true ->
  (∃ code, (Cli.script env args fuel s).1 = Some code)
  ∧ ∃ t, trace (Cli.script env args fuel s).2 = trace s ++ t
      ∧ Forall (λ ev, is_wait ev = false) t.
Proof.
  intros Hnb.
  assert (Hflag : ∀ ids s0 pool s1,
            InstancePool.__init__ env ids (Cli.dry_run args)
              (if Cli.non_blocking args then false else true) s0 = (Returned pool, s1) ->
            InstancePool._blocking pool = false).
  { intros ids s0 pool s1 Hinit.
    destruct (init_returned_flags _ _ _ _ _ _ _ Hinit) as [_ ->]. by rewrite Hnb. }
  assert (Hemits : emits (λ ev, is_wait ev = false) (Cli.main env args fuel)).
  { unfold Cli.main.
    apply emits_bind; [by apply emits_emit | intros _].
    apply emits_bind; [| intros _].
    { eapply emits_weaken; [| apply emits_config_init]. intros ev. by destruct ev. }
    apply emits_bind; [| intros ids].
    { destruct (Cli.group args); [apply emits_get | apply emits_split]. }
    apply (emits_bind_post _ (λ pool, InstancePool._blocking pool = false)).
    - unfold InstancePool.__init__. emits_auto; done.
    - intros s0 pool s1. apply Hflag.
    - intros pool Hpool. apply emits_try_except.
      + apply emits_bind; [| intros _; apply emits_ret].
        rewrite dispatch_for_each. apply emits_for_each.
        intros i _. by apply body_non_blocking.
      + intros _. apply emits_bind; [by apply emits_print | intros _; apply emits_ret]. }
  assert (Htotal : total (Cli.main env args fuel)).
  { unfold Cli.main.
    apply total_bind; [apply total_emit | intros _].
    apply total_bind; [apply total_config_init | intros _].
    apply total_bind; [| intros ids].
    { destruct (Cli.group args); [done |].
      unfold Cli.split. destruct (bool_decide _); [apply total_raise | apply total_ret]. }
    apply (total_bind_post (λ pool, InstancePool._blocking pool = false)).
    - apply total_init.
    - intros s0 pool s1. apply Hflag.
    - intros pool Hpool. apply total_try_except.
      + apply total_bind; [| intros _; apply total_ret].
        rewrite dispatch_for_each. apply total_for_each.
        intros i _. by apply body_non_blocking.
      + intros _. apply total_bind; [apply total_emit | intros _; apply total_ret]. }
  destruct (Hemits s) as (t & E & F). specialize (Htotal s). unfold Cli.script.
  destruct (Cli.main env args fuel s) as [[[code |] | [c msg | code] |] s1];
    simpl in *; try done; try (split; [by eexists | by exists t]).
  destruct (bool_decide (c = SystemExit)); (split; [by eexists |]); [by exists t |].
  exists (t ++ [EvTraceback (PyExn c msg)]). simpl. rewrite E, app_assoc.
  split; [done |]. apply Forall_app. split; [done | by repeat constructor].
Qed.

Lemma non_blocking_flag_never_waits_witness :
  Cli.script Demo.stuck (Demo.args true false true Cli.CmdStart "db") 0 initial
  = (Some 0,
     mkState
       [ EvBasicConfig 50; EvOpen "/etc/imgr.yaml"; EvOpen "/home/ops/.imgr.yaml";
         EvConnect "us-east-1"; EvGetOnlyInstances (PyList [PyStr "i-7"]);
         EvPrint "Instance web-1 is already running, skip it.";
         EvPrint "Starting web-2..."; EvStart Demo.web2 ]
       (Demo.user_yaml ∪ Demo.site_yaml))
  ∧ ∃ code, (Cli.script Demo.stuck (Demo.args true false true Cli.CmdStart "db") 0
               initial).1 = Some code.
Proof.
  split; [by vm_compute |].
  exact (proj1 (non_blocking_flag_never_waits Demo.stuck
                  (Demo.args true false true Cli.CmdStart "db") 0 initial eq_refl)).
Defined.
